(** * Control props: the [useToggle] hook of [src/exercise/06.js]

    A shallow embedding of the toggle hook and of its two development-time
    advisory hooks, together with the part of React's hook discipline
    ([useRef], [useReducer], [useEffect]) that the hook relies on.

    JavaScript objects are finite maps from property names to values,
    exceptions are an explicit result type, the hook cells that React keeps
    between two renders are an explicit record, and what an event handler
    does to the outside world (a [dispatch], a call of the [onChange]
    observer) is a list of events. *)

From stdpp Require Import base option strings list gmap.
From Stdlib Require Import ZArith.

Local Open Scope string_scope.

(** ** JavaScript values *)

(** The primitive values that the hook's options and the fields of its state
    take.  Numbers are kept to the integers: no NaN and no negative zero. *)
Inductive val :=
  | VUndefined
  | VNull
  | VBool (b : bool)
  | VNum (n : Z)
  | VStr (s : string).

Global Instance val_eq_dec : EqDecision val.
Proof. solve_decision. Defined.

(** [!!v]: the truthiness of a value. *)
Definition truthy (v : val) : bool :=
  match v with
  | VUndefined | VNull => false
  | VBool b => b
  | VNum n => negb (n =? 0)%Z
  | VStr s => negb (String.eqb s "")
  end.

(** [v != null]: loose inequality with [null] is false on [null] and on
    [undefined] only. *)
Definition not_nullish (v : val) : bool :=
  match v with
  | VUndefined | VNull => false
  | _ => true
  end.

(** A default parameter [x = d] takes [d] when the argument is [undefined]. *)
Definition default_param (d v : val) : val :=
  match v with
  | VUndefined => d
  | _ => v
  end.

(** A state is either an object or, when a reducer hands back a missing
    payload, [undefined]. *)
Inductive jsstate :=
  | StUndefined
  | StObj (o : gmap string val).

(** [o.k] on an object: a missing property reads as [undefined]. *)
Definition get_field (o : gmap string val) (k : string) : val :=
  default VUndefined (o !! k).

(** [{...state}]: spreading [undefined] contributes no property. *)
Definition spread (s : jsstate) : gmap string val :=
  match s with
  | StUndefined => ∅
  | StObj o => o
  end.

(** ** Exceptions *)

Inductive JsError :=
  | Error (msg : string)
  | TypeError (msg : string).

Inductive Res (A : Type) :=
  | Ok (a : A)
  | Throw (e : JsError).
Arguments Ok {A} a.
Arguments Throw {A} e.

Global Instance Res_ret : MRet Res := @Ok.
Global Instance Res_bind : MBind Res := λ A B (k : A → Res B) (m : Res A),
  match m with
  | Ok a => k a
  | Throw e => Throw e
  end.

Global Instance Res_fmap : FMap Res := λ A B (f : A → B) (m : Res A),
  match m with
  | Ok a => Ok (f a)
  | Throw e => Throw e
  end.

(** [state.on]: reading a property of [undefined] is a [TypeError]. *)
Definition state_on (s : jsstate) : Res val :=
  match s with
  | StUndefined =>
      Throw (TypeError "Cannot read properties of undefined (reading 'on')")
  | StObj o => Ok (get_field o "on")
  end.

(** ** Actions and the reducer *)

Module actionTypes.

Definition toggle : string := "toggle".
Definition reset : string := "reset".

End actionTypes.

(** An action object [{type, initialState}]; a property that is absent
    reads as [undefined]. *)
Record Action := mkAction {
  type : string;
  initialState : jsstate;
}.

Definition Reducer : Type := jsstate → Action → Res jsstate.

Definition toggleReducer (state : jsstate) (action : Action) : Res jsstate :=
  if String.eqb (type action) actionTypes.toggle then
    v ← state_on state;
    Ok (StObj {[ "on" := VBool (negb (truthy v)) ]})
  else if String.eqb (type action) actionTypes.reset then
    Ok (initialState action)
  else
    Throw (Error ("Unsupported type: " ++ type action)).

(** ** Development-time warnings *)

(** [warning(condition, message)] of the [warning] package: the message is
    logged when the condition does NOT hold. *)
Definition warning (condition : bool) (message : string) : list string :=
  if condition then [] else [message].

Definition nl : string := String (Ascii.ascii_of_nat 10) "".

Definition msg_uncontrolled_to_controlled : string :=
  "A component is changing an uncontrolled input to be controlled. " ++
  "This is likely caused by the value changing from undefined to a defined " ++
  "value, which should not happen. Decide between using a controlled or " ++
  "uncontrolled input element for the lifetime of the component".

Definition msg_controlled_to_uncontrolled : string :=
  "A component is changing a controlled input to be uncontrolled. " ++
  "This is likely caused by the value changing from a defined to undefined, " ++
  "which should not happen. Decide between using a controlled or" ++
  " uncontrolled input element for the lifetime of the component.".

Definition msg_read_only (controlPropName : string) : string :=
  "You provided a " ++ controlPropName ++ " prop to a form field without " ++ nl ++
  "        an 'onChange' handler. This will render a read-only field. If the field " ++ nl ++
  "        should be mutable use 'defaultValue'. Otherwise, set either " ++ nl ++
  "        'onChange' or 'readOnly'. at input".

(** ** React's hook cells

    React keeps one cell per hook call between two renders of an instance;
    [None] stands for "not mounted yet". *)

(** [React.useRef(initialValue)]: the value of the first render is kept. *)
Definition useRef {A} (cell : option A) (initialValue : A) : A :=
  default initialValue cell.

(** The pending actions are folded in the order of their dispatch, with the
    reducer of the render that processes them. *)
Fixpoint processQueue (reducer : Reducer) (s : jsstate) (pending : list Action)
  : Res jsstate :=
  match pending with
  | [] => Ok s
  | a :: rest => s' ← reducer s a; processQueue reducer s' rest
  end.

(** [React.useReducer(reducer, initialArg)]. *)
Definition useReducer (reducer : Reducer) (initialArg : jsstate)
    (cell : option (jsstate * list Action)) : Res jsstate :=
  match cell with
  | None => Ok initialArg
  | Some (s, pending) => processQueue reducer s pending
  end.

(** [useEffect(fn, deps)]: [fn] runs after the first render and after every
    render whose dependencies differ from those of the previous one. *)
Definition effect_due {D} `{EqDecision D} (prev : option D) (deps : D) : bool :=
  match prev with
  | None => true
  | Some d => negb (bool_decide (d = deps))
  end.

(** ** The advisory hooks *)

Record SwitchCells := mkSwitchCells {
  wasControlledRef : bool;
  switchDeps : bool * bool;
}.

Definition useControlledSwitchWarning (controlledPropValue : val)
    (cells : option SwitchCells) : SwitchCells * list string :=
  let isControlled := not_nullish controlledPropValue in
  let wasControlled := useRef (wasControlledRef <$> cells) isControlled in
  let deps := (wasControlled, isControlled) in
  (mkSwitchCells wasControlled deps,
   if effect_due (switchDeps <$> cells) deps then
     (warning (negb (isControlled && negb wasControlled))
        msg_uncontrolled_to_controlled ++
      warning (negb (negb isControlled && wasControlled))
        msg_controlled_to_uncontrolled)%list
   else []).

(** An observer is a callback supplied by the owner; it is known by name
    only, and its calls are recorded. *)
Definition Observer : Type := string.

Definition ReadOnlyDeps : Type := bool * bool * val * string.

Definition useReadOnlyWarning (controlPropValue : val) (controlPropName : string)
    (onChange : option Observer) (readOnly : val)
    (cells : option ReadOnlyDeps) : ReadOnlyDeps * list string :=
  let isControlled := not_nullish controlPropValue in
  let hasOnChange := bool_decide (is_Some onChange) in
  let deps := (isControlled, hasOnChange, readOnly, controlPropName) in
  (deps,
   if effect_due cells deps then
     warning (isControlled && negb hasOnChange && negb (truthy readOnly))
       (msg_read_only controlPropName)
   else []).

(** ** The toggle hook *)

(** The options object of [useToggle]; [controlledOn] is the [on] option. *)
Record Props := mkProps {
  initialOn : val;
  reducer : option Reducer;
  onChange : option Observer;
  controlledOn : val;
  readOnly : val;
}.

(** The cells of the two advisory hooks. *)
Record DiagCells := mkDiagCells {
  switchCells : SwitchCells;
  readOnlyCells : ReadOnlyDeps;
}.

(** The cells of one instance: the [useRef] of the initial state, the state
    and the pending actions of [useReducer], and the cells of the advisory
    hooks when they are called. *)
Record Hooks := mkHooks {
  initialStateRef : gmap string val;
  reducerState : jsstate;
  pendingActions : list Action;
  diagCells : option DiagCells;
}.

(** The bindings of one render, over which [toggle] and [reset] close. *)
Record Render := mkRender {
  on : val;
  onIsControlled : bool;
  state : jsstate;
  cur_reducer : Reducer;
  cur_onChange : option Observer;
  cur_initialState : gmap string val;
}.

(** What a handler does: it dispatches to [useReducer] and calls the
    observer. *)
Inductive Event :=
  | EvDispatch (action : Action)
  | EvOnChange (f : Observer) (next : jsstate) (action : Action).

(** A handler returns the events it caused, in order, and whether it
    returned or threw. *)
Definition dispatchWithOnChange (r : Render) (action : Action)
  : list Event * Res unit :=
  let dispatched := if onIsControlled r then [] else [EvDispatch action] in
  match cur_onChange r with
  | None => (dispatched, Ok ())
  | Some f =>
      match cur_reducer r (StObj (<["on" := on r]> (spread (state r)))) action with
      | Ok next => ((dispatched ++ [EvOnChange f next action])%list, Ok ())
      | Throw e => (dispatched, Throw e)
      end
  end.

(** [{type: actionTypes.toggle}] and [{type: actionTypes.reset, initialState}]. *)
Definition toggleAction : Action := mkAction actionTypes.toggle StUndefined.

Definition resetAction (initialState : gmap string val) : Action :=
  mkAction actionTypes.reset (StObj initialState).

(** The [toggle] and [reset] that a render returns. *)
Definition toggle (r : Render) : list Event * Res unit :=
  dispatchWithOnChange r toggleAction.

Definition reset (r : Render) : list Event * Res unit :=
  dispatchWithOnChange r (resetAction (cur_initialState r)).

(** The advisory hooks run only when [dev] holds, that is when
    [process.env.NODE_ENV !== 'production']. *)
Definition diagnostics (dev : bool) (controlledOn : val)
    (onChange : option Observer) (readOnly : val) (cells : option DiagCells)
  : option DiagCells * list string :=
  if dev then
    let '(sw, log1) :=
      useControlledSwitchWarning controlledOn (switchCells <$> cells) in
    let '(ro, log2) :=
      useReadOnlyWarning controlledOn "on" onChange readOnly
        (readOnlyCells <$> cells) in
    (Some (mkDiagCells sw ro), (log1 ++ log2)%list)
  else (None, []).

(** One render of the hook: the new cells, the bindings returned to the
    caller, and the warnings logged by the effects of this render. *)
Definition useToggle (dev : bool) (p : Props) (cells : option Hooks)
  : Res (Hooks * Render * list string) :=
  let initialOn := default_param (VBool false) (initialOn p) in
  let reducer := default toggleReducer (reducer p) in
  let onChange := onChange p in
  let controlledOn := controlledOn p in
  let readOnly := default_param (VBool false) (readOnly p) in
  let initialState := useRef (initialStateRef <$> cells) {[ "on" := initialOn ]} in
  state ← useReducer reducer (StObj initialState)
             ((λ h, (reducerState h, pendingActions h)) <$> cells);
  let onIsControlled := not_nullish controlledOn in
  on ← (if onIsControlled then Ok controlledOn else state_on state);
  let '(diag, log) :=
    diagnostics dev controlledOn onChange readOnly (cells ≫= diagCells) in
  Ok (mkHooks initialState state [] diag,
      mkRender on onIsControlled state reducer onChange initialState,
      log).

(** ** An instance over its lifetime *)

(** A mounted instance: its cells, the bindings of its last render, the
    warnings logged so far, the calls the observers received so far, and the
    exceptions that escaped its handlers. *)
Record Instance := mkInstance {
  hooks : Hooks;
  rendered : Render;
  console : list string;
  notified : list (Observer * jsstate * Action);
  uncaught : list JsError;
}.

(** The actions that a handler dispatched, and the calls it made to the
    observer. *)
Definition dispatched (evs : list Event) : list Action :=
  omap (λ ev, match ev with EvDispatch a => Some a | _ => None end) evs.

Definition observed (evs : list Event) : list (Observer * jsstate * Action) :=
  omap (λ ev, match ev with
              | EvOnChange f next a => Some (f, next, a)
              | _ => None
              end) evs.

(** [dispatch(action)] appends the action to the pending ones. *)
Definition enqueue (h : Hooks) (actions : list Action) : Hooks :=
  mkHooks (initialStateRef h) (reducerState h)
    (pendingActions h ++ actions)%list (diagCells h).

(** The exception with which a handler ended, if any. *)
Definition thrown (res : Res unit) : list JsError :=
  match res with
  | Ok _ => []
  | Throw e => [e]
  end.

(** The instance after a handler call: the dispatched actions are pending
    until the next render, the observer calls and the exception are recorded. *)
Definition handle (i : Instance) (outcome : list Event * Res unit) : Instance :=
  mkInstance (enqueue (hooks i) (dispatched outcome.1)) (rendered i) (console i)
    (notified i ++ observed outcome.1)%list
    (uncaught i ++ thrown outcome.2)%list.

Definition mount (dev : bool) (p : Props) : Res Instance :=
  '(h, r, log) ← useToggle dev p None;
  Ok (mkInstance h r log [] []).

Definition rerender (dev : bool) (p : Props) (i : Instance) : Res Instance :=
  '(h, r, log) ← useToggle dev p (Some (hooks i));
  Ok (mkInstance h r (console i ++ log)%list (notified i) (uncaught i)).

(** What happens to an instance: it is rendered again with new options, or
    the [toggle] or [reset] of its last render is called. *)
Inductive Step :=
  | Rerender (p : Props)
  | CallToggle
  | CallReset.

Definition step (dev : bool) (i : Instance) (s : Step) : Res Instance :=
  match s with
  | Rerender p => rerender dev p i
  | CallToggle => Ok (handle i (toggle (rendered i)))
  | CallReset => Ok (handle i (reset (rendered i)))
  end.

Fixpoint run (dev : bool) (i : Instance) (script : list Step) : Res Instance :=
  match script with
  | [] => Ok i
  | s :: rest => i' ← step dev i s; run dev i' rest
  end.

Definition lifetime (dev : bool) (p : Props) (script : list Step) : Res Instance :=
  i ← mount dev p; run dev i script.

(** The value of [on] that each render of a script reports, in order. *)
Fixpoint on_trace (dev : bool) (i : Instance) (script : list Step) : list val :=
  match script with
  | [] => []
  | s :: rest =>
      match step dev i s with
      | Ok i' =>
          match s with
          | Rerender _ => on (rendered i') :: on_trace dev i' rest
          | _ => on_trace dev i' rest
          end
      | Throw _ => []
      end
  end.

(** [useToggle()]: every option is left out. *)
Definition defaultProps : Props :=
  mkProps VUndefined None None VUndefined VUndefined.

(** ** Vocabulary of the properties *)

(** [{...state, on}] of a render: the internal state with its [on] replaced
    by the reported one. *)
Definition merged (r : Render) : jsstate :=
  StObj (<["on" := on r]> (spread (state r))).

(** A step of a controlled lifetime: a render is given a non-null [on]. *)
Definition controlled_step (s : Step) : Prop :=
  match s with
  | Rerender p => not_nullish (controlledOn p) = true
  | _ => True
  end.

(** The value of the [on] option at the last render of a script. *)
Fixpoint external_value (v : val) (script : list Step) : val :=
  match script with
  | [] => v
  | Rerender p :: rest => external_value (controlledOn p) rest
  | _ :: rest => external_value v rest
  end.

(** The value of the [on] option at each render of a script, in order. *)
Definition external_values (script : list Step) : list val :=
  omap (λ s, match s with Rerender p => Some (controlledOn p) | _ => None end)
    script.

(** A controlled instance at rest: nothing is pending and its handlers
    belong to a controlled render. *)
Definition standby (st : jsstate) (i : Instance) : Prop :=
  reducerState (hooks i) = st
  ∧ pendingActions (hooks i) = []
  ∧ onIsControlled (rendered i) = true.

(** The state that the next render of an instance reads. *)
Definition committed (i : Instance) : Res jsstate :=
  processQueue toggleReducer (reducerState (hooks i)) (pendingActions (hooks i)).

(** A step of a self-owned lifetime with the built-in reducer: a render is
    given no [on] and no [reducer]. *)
Definition self_owned_step (s : Step) : Prop :=
  match s with
  | Rerender p => not_nullish (controlledOn p) = false ∧ reducer p = None
  | _ => True
  end.

(** An instance that owns its state: the initial state [{on: v0}] is in its
    [useRef] cell and in the bindings of its handlers, and its next render
    reads the object [o]. *)
Definition self_owned (v0 : val) (o : gmap string val) (i : Instance) : Prop :=
  initialStateRef (hooks i) = {[ "on" := v0 ]}
  ∧ cur_initialState (rendered i) = {[ "on" := v0 ]}
  ∧ onIsControlled (rendered i) = false
  ∧ committed i = Ok (StObj o).

(** What the steps do to the object that the next render reads. *)
Definition next_obj (v0 : val) (o : gmap string val) (s : Step)
  : gmap string val :=
  match s with
  | Rerender _ => o
  | CallToggle => {[ "on" := VBool (negb (truthy (get_field o "on"))) ]}
  | CallReset => {[ "on" := v0 ]}
  end.

(** What the renders of a script report, when the first of them reads [o]. *)
Fixpoint reported (v0 : val) (o : gmap string val) (script : list Step)
  : list val :=
  match script with
  | [] => []
  | Rerender p :: rest => get_field o "on" :: reported v0 o rest
  | s :: rest => reported v0 (next_obj v0 o s) rest
  end.

(** A self-owned step that is not a [reset()]. *)
Definition toggling_step (s : Step) : Prop :=
  match s with
  | Rerender p => not_nullish (controlledOn p) = false ∧ reducer p = None
  | CallToggle => True
  | CallReset => False
  end.

(** The number of [toggle()] calls of a script. *)
Fixpoint toggles (script : list Step) : nat :=
  match script with
  | [] => 0
  | CallToggle :: rest => S (toggles rest)
  | _ :: rest => toggles rest
  end.

(** What the renders of a script report when [n] toggles came before it and
    each toggle flips the flag. *)
Fixpoint parities (n : nat) (script : list Step) : list val :=
  match script with
  | [] => []
  | Rerender _ :: rest => VBool (Nat.odd n) :: parities n rest
  | CallToggle :: rest => parities (S n) rest
  | CallReset :: rest => parities n rest
  end.

(** The warnings that [useControlledSwitchWarning] logs over the successive
    renders of one instance, given the value of the control prop at each. *)
Fixpoint switch_warnings (cells : option SwitchCells) (observations : list val)
  : list string :=
  match observations with
  | [] => []
  | v :: rest =>
      let '(cells', log) := useControlledSwitchWarning v cells in
      (log ++ switch_warnings (Some cells') rest)%list
  end.

(** The options without [readOnly], which only the advisory hooks read. *)
Definition core_props (p : Props) : Props :=
  mkProps (initialOn p) (reducer p) (onChange p) (controlledOn p) VUndefined.

(** A step without the [readOnly] given to its render. *)
Definition core_step (s : Step) : Step :=
  match s with
  | Rerender p => Rerender (core_props p)
  | _ => s
  end.

(** The cells that [useRef] and [useReducer] own. *)
Definition core_cells (h : Hooks)
  : gmap string val * jsstate * list Action :=
  (initialStateRef h, reducerState h, pendingActions h).

(** Everything about an instance but its advisory cells and its console:
    the internal state and the pending actions, the bindings returned by the
    last render (the reported [on] among them), the calls made to the
    observers and the exceptions that escaped. *)
Definition returned (i : Instance) :=
  (core_cells (hooks i), rendered i, notified i, uncaught i).

(** The value of [on] reported by the first render and by each later one. *)
Definition reported_on (dev : bool) (p : Props) (script : list Step) : list val :=
  match mount dev p with
  | Ok i => on (rendered i) :: on_trace dev i script
  | Throw _ => []
  end.

(** Two outcomes agree when both throw the same exception or both return
    instances that agree on [returned]. *)
Definition agree (a b : Res Instance) : Prop :=
  match a, b with
  | Ok i1, Ok i2 => returned i1 = returned i2
  | Throw e1, Throw e2 => e1 = e2
  | _, _ => False
  end.

(** ** Prop getters and the [Toggle] component *)

(** A callback: the events that a call with [args] causes, in order, and
    whether the call returns or throws. *)
Definition Fn (A E : Type) : Type := A → list E * Res unit.

(** [callAll(...fns)(...args)]: [fns.forEach(fn => fn?.(...args))].  An
    entry that is [undefined] is skipped; an exception ends the loop. *)
Fixpoint callAll {A E} (fns : list (option (Fn A E))) (args : A)
  : list E * Res unit :=
  match fns with
  | [] => ([], Ok ())
  | None :: rest => callAll rest args
  | Some fn :: rest =>
      match fn args with
      | (evs, Ok _) =>
          let '(evs', res) := callAll rest args in ((evs ++ evs')%list, res)
      | (evs, Throw e) => (evs, Throw e)
      end
  end.

(** The argument of a prop getter, as its pattern [{onClick, ...props}]
    splits it. *)
Record GetterArg (A E : Type) := mkGetterArg {
  onClick : option (Fn A E);
  restProps : gmap string val;
}.
Arguments mkGetterArg {A E} onClick restProps.
Arguments onClick {A E} g.
Arguments restProps {A E} g.

(** The props that a getter returns: the click handler and the other
    properties. *)
Record ElementProps (A E : Type) := mkElementProps {
  attrs : gmap string val;
  handleClick : Fn A E;
}.
Arguments mkElementProps {A E} attrs handleClick.
Arguments attrs {A E} e.
Arguments handleClick {A E} e.

(** The default [= {}] of a getter's argument. *)
Definition emptyArg {A E} : GetterArg A E := mkGetterArg None ∅.

(** A handler of the hook as a callback of the caller: it ignores its
    arguments; [lift] places the events of the hook among the caller's. *)
Definition asFn {A E} (lift : Event → E) (outcome : list Event * Res unit)
  : Fn A E :=
  λ _, (lift <$> outcome.1, outcome.2).

(** In an object literal a later property wins, so the caller's props go
    over ['aria-pressed']. *)
Definition getTogglerProps {A E} (lift : Event → E) (r : Render)
    (arg : option (GetterArg A E)) : ElementProps A E :=
  let arg := default emptyArg arg in
  mkElementProps (restProps arg ∪ {[ "aria-pressed" := on r ]})
    (callAll [onClick arg; Some (asFn lift (toggle r))]).

Definition getResetterProps {A E} (lift : Event → E) (r : Render)
    (arg : option (GetterArg A E)) : ElementProps A E :=
  let arg := default emptyArg arg in
  mkElementProps (restProps arg)
    (callAll [onClick arg; Some (asFn lift (reset r))]).

(** [Toggle({on, onChange, readOnly})]: the props that it hands to the
    switch it renders. *)
Definition toggleOptions (controlledOn : val) (onChange : option Observer)
    (readOnly : val) : Props :=
  mkProps VUndefined None onChange controlledOn readOnly.

(** [getTogglerProps({on})], spread on the switch. *)
Definition switchProps {A} (r : Render) : ElementProps A Event :=
  getTogglerProps id r (Some (mkGetterArg None {[ "on" := on r ]})).

Definition Toggle {A} (dev : bool) (controlledOn : val)
    (onChange : option Observer) (readOnly : val) (cells : option Hooks)
  : Res (Hooks * ElementProps A Event * list string) :=
  '(h, r, log) ← useToggle dev (toggleOptions controlledOn onChange readOnly) cells;
  Ok (h, switchProps r, log).

(** ** The [App] component *)

(** The two [useState] cells of [App]. *)
Record AppState := mkAppState {
  bothOn : val;
  timesClicked : Z;
}.

(** A call of a setter: [setBothOn(v)], [setTimesClicked(n)] or
    [setTimesClicked(updater)]. *)
Inductive AppUpdate :=
  | SetBothOn (v : val)
  | SetTimesClicked (n : Z)
  | UpdateTimesClicked (updater : Z → Z).

Definition applyUpdate (a : AppState) (u : AppUpdate) : AppState :=
  match u with
  | SetBothOn v => mkAppState v (timesClicked a)
  | SetTimesClicked n => mkAppState (bothOn a) n
  | UpdateTimesClicked updater => mkAppState (bothOn a) (updater (timesClicked a))
  end.

(** [handleToggleChange(state, action)] of the render with the cells [a]:
    the setters that it calls, in order. *)
Definition handleToggleChange (a : AppState) (state : jsstate) (action : Action)
  : Res (list AppUpdate) :=
  if String.eqb (type action) actionTypes.toggle && (4 <? timesClicked a)%Z
  then Ok []
  else
    v ← state_on state;
    Ok [SetBothOn v; UpdateTimesClicked (λ c, (c + 1)%Z)].

Definition handleResetClick : list AppUpdate :=
  [SetBothOn (VBool false); SetTimesClicked 0].

(** What [App] shows between the toggles and the reset button. *)
Inductive Banner :=
  | Notice
  | ClickCount (n : Z).

Definition banner (a : AppState) : Banner :=
  if (4 <? timesClicked a)%Z then Notice else ClickCount (timesClicked a).

(** The options that [App] gives to its two controlled toggles and to its
    uncontrolled one. *)
Definition bothOptions (a : AppState) : Props :=
  toggleOptions (bothOn a) (Some "handleToggleChange") VUndefined.

Definition freeOptions : Props :=
  toggleOptions VUndefined (Some "console.info") VUndefined.

(** A mounted [App]: its cells, its three [Toggle] children, and what the
    uncontrolled one printed with [console.info]. *)
Record AppInstance := mkAppInstance {
  appState : AppState;
  firstToggle : Instance;
  secondToggle : Instance;
  freeToggle : Instance;
  info : list (jsstate * Action);
}.

(** A click on the switch of a [Toggle]. *)
Definition click (t : Instance) : list Event * Res unit :=
  handleClick (switchProps (rendered t)) ().

(** The calls that [handleToggleChange] receives, one after the other. *)
Fixpoint notifyOwner (a : AppState) (calls : list (Observer * jsstate * Action))
  : Res (list AppUpdate) :=
  match calls with
  | [] => Ok []
  | (_, s, action) :: rest =>
      ups ← handleToggleChange a s action;
      ups' ← notifyOwner a rest;
      Ok (ups ++ ups')%list
  end.

(** A render of [App] with the cells [a] renders its three children. *)
Definition renderApp (dev : bool) (a : AppState) (t1 t2 t3 : Instance)
    (printed : list (jsstate * Action)) : Res AppInstance :=
  t1' ← rerender dev (bothOptions a) t1;
  t2' ← rerender dev (bothOptions a) t2;
  t3' ← rerender dev freeOptions t3;
  Ok (mkAppInstance a t1' t2' t3' printed).

Definition mountApp (dev : bool) : Res AppInstance :=
  let a := mkAppState (VBool false) 0 in
  t1 ← mount dev (bothOptions a);
  t2 ← mount dev (bothOptions a);
  t3 ← mount dev freeOptions;
  Ok (mkAppInstance a t1 t2 t3 []).

Inductive AppEvent :=
  | ClickFirst
  | ClickSecond
  | ClickFree
  | ClickResetButton.

Global Instance AppEvent_eq_dec : EqDecision AppEvent.
Proof. solve_decision. Defined.

(** One click: the handler runs, the setters it called are applied, and
    [App] renders again. *)
Definition appStep (dev : bool) (x : AppInstance) (ev : AppEvent)
  : Res AppInstance :=
  match ev with
  | ClickFirst =>
      let out := click (firstToggle x) in
      ups ← notifyOwner (appState x) (observed out.1);
      renderApp dev (foldl applyUpdate (appState x) ups)
        (handle (firstToggle x) out) (secondToggle x) (freeToggle x) (info x)
  | ClickSecond =>
      let out := click (secondToggle x) in
      ups ← notifyOwner (appState x) (observed out.1);
      renderApp dev (foldl applyUpdate (appState x) ups)
        (firstToggle x) (handle (secondToggle x) out) (freeToggle x) (info x)
  | ClickFree =>
      let out := click (freeToggle x) in
      renderApp dev (appState x) (firstToggle x) (secondToggle x)
        (handle (freeToggle x) out)
        (info x ++ ((λ c, (c.1.2, c.2)) <$> observed out.1))%list
  | ClickResetButton =>
      renderApp dev (foldl applyUpdate (appState x) handleResetClick)
        (firstToggle x) (secondToggle x) (freeToggle x) (info x)
  end.

Fixpoint runApp (dev : bool) (x : AppInstance) (events : list AppEvent)
  : Res AppInstance :=
  match events with
  | [] => Ok x
  | ev :: rest => x' ← appStep dev x ev; runApp dev x' rest
  end.

Definition lifetimeApp (dev : bool) (events : list AppEvent) : Res AppInstance :=
  x ← mountApp dev; runApp dev x events.

(** The clicks of a list that are on one of the two controlled toggles, and
    those on the uncontrolled one. *)
Definition bothClicks (events : list AppEvent) : nat :=
  length (filter (λ ev, ev = ClickFirst ∨ ev = ClickSecond) events).

Definition freeClicks (events : list AppEvent) : nat :=
  length (filter (λ ev, ev = ClickFree) events).

(** ** Vocabulary of the further properties *)

(** The message of a mode change away from the mode of the first render. *)
Definition switch_message (first : bool) : string :=
  if first then msg_controlled_to_uncontrolled
  else msg_uncontrolled_to_controlled.

(** The number of renders that leave the mode of the first render: their
    mode differs from [first] and the render before them was in mode
    [prev] = [first]. *)
Fixpoint departures (first prev : bool) (modes : list bool) : nat :=
  match modes with
  | [] => 0
  | m :: rest =>
      (if bool_decide (m ≠ first) && bool_decide (prev = first) then 1 else 0)
      + departures first m rest
  end.

(** A controlled toggle of [App] at rest: its internal state is the one of
    its mount, and its handlers belong to a render with [on = bothOn]. *)
Definition both_ok (a : AppState) (t : Instance) : Prop :=
  standby (StObj {[ "on" := VBool false ]}) t
  ∧ initialStateRef (hooks t) = {[ "on" := VBool false ]}
  ∧ rendered t
    = mkRender (bothOn a) true (StObj {[ "on" := VBool false ]}) toggleReducer
        (Some "handleToggleChange") {[ "on" := VBool false ]}.

(** The uncontrolled toggle of [App] after [m] clicks and a render. *)
Definition free_ok (m : nat) (t : Instance) : Prop :=
  self_owned (VBool false) {[ "on" := VBool (Nat.odd m) ]} t
  ∧ rendered t
    = mkRender (VBool (Nat.odd m)) false (StObj {[ "on" := VBool (Nat.odd m) ]})
        toggleReducer (Some "console.info") {[ "on" := VBool false ]}.

(** [App] in summary: the flag, the counter, and the number of clicks on the
    uncontrolled toggle. *)
Definition appNext (c : bool * Z * nat) (ev : AppEvent) : bool * Z * nat :=
  let '(b, n, m) := c in
  match ev with
  | ClickFirst | ClickSecond =>
      if (4 <? n)%Z then (b, n, m) else (negb b, (n + 1)%Z, m)
  | ClickFree => (b, n, S m)
  | ClickResetButton => (false, 0%Z, m)
  end.

Definition app_ok (c : bool * Z * nat) (x : AppInstance) : Prop :=
  appState x = mkAppState (VBool c.1.1) c.1.2
  ∧ both_ok (appState x) (firstToggle x)
  ∧ both_ok (appState x) (secondToggle x)
  ∧ free_ok c.2 (freeToggle x)
  ∧ length (info x) = c.2.

(** * Properties *)

(** The scenario of an instance built with nothing but defaults: three
    toggles, then a reset, with a render after each. *)
Example three_toggles :
  (i ← mount true defaultProps;
   Ok (on (rendered i)
       :: on_trace true i
            [CallToggle; Rerender defaultProps;
             CallToggle; Rerender defaultProps;
             CallToggle; Rerender defaultProps;
             CallReset; Rerender defaultProps]))
  = Ok [VBool false; VBool true; VBool false; VBool true; VBool false].
Proof. vm_compute. reflexivity. Qed.

(** ** The reducer *)

Lemma toggleReducer_toggle (o : gmap string val) (a : Action) :
  type a = actionTypes.toggle →
  toggleReducer (StObj o) a
  = Ok (StObj {[ "on" := VBool (negb (truthy (get_field o "on"))) ]}).
Proof. intros Ha. unfold toggleReducer. rewrite Ha. reflexivity. Qed.

Lemma toggleReducer_reset (s : jsstate) (a : Action) :
  type a = actionTypes.reset →
  toggleReducer s a = Ok (initialState a).
Proof. intros Ha. unfold toggleReducer. rewrite Ha. reflexivity. Qed.

Lemma toggleReducer_unsupported (s : jsstate) (a : Action) :
  type a ≠ actionTypes.toggle →
  type a ≠ actionTypes.reset →
  toggleReducer s a = Throw (Error ("Unsupported type: " ++ type a)).
Proof.
  intros Ht Hr. unfold toggleReducer.
  destruct (String.eqb_spec (type a) actionTypes.toggle) as [E|_]; [done|].
  destruct (String.eqb_spec (type a) actionTypes.reset) as [E|_]; [done|].
  reflexivity.
Qed.

(** C2, as stated, fails: on a state that has a field besides [on], a toggle
    returns a state in which that field is gone. *)
Lemma C2_toggle_drops_other_fields :
  let s : gmap string val := {[ "on" := VBool false; "label" := VStr "a" ]} in
  ∃ o' : gmap string val,
    toggleReducer (StObj s) toggleAction = Ok (StObj o')
    ∧ s !! "label" = Some (VStr "a")
    ∧ o' !! "label" = None
    ∧ "label" ≠ "on".
Proof.
  eexists. split; [apply toggleReducer_toggle; reflexivity|].
  split; [reflexivity|]. split; [reflexivity|]. discriminate.
Qed.

(** C2, amended: a toggle returns the state [{on: !state.on}], whose only
    field is [on], negated; a field other than [on] is absent from the
    result, so it is unchanged exactly when the state did not have it. *)
Theorem C2_toggle_returns_only_on (o : gmap string val) (a : Action) :
  type a = actionTypes.toggle →
  ∃ o' : gmap string val,
    toggleReducer (StObj o) a = Ok (StObj o')
    ∧ o' !! "on" = Some (VBool (negb (truthy (get_field o "on"))))
    ∧ ∀ k : string, k ≠ "on" →
        o' !! k = None ∧ (o' !! k = o !! k ↔ o !! k = None).
Proof.
  intros Ha. eexists. split; [by apply toggleReducer_toggle|].
  split; [by rewrite lookup_singleton_eq|].
  intros k Hk.
  assert (E : ({[ "on" := VBool (negb (truthy (get_field o "on"))) ]}
                 : gmap string val) !! k = None)
    by (by apply lookup_singleton_ne).
  split; [exact E|]. rewrite E. split; congruence.
Qed.

Lemma C2_toggle_returns_only_on_witness :
  ∃ o' : gmap string val,
    toggleReducer (StObj {[ "on" := VBool true ]}) toggleAction = Ok (StObj o')
    ∧ o' !! "on" = Some (VBool false)
    ∧ ∀ k : string, k ≠ "on" →
        o' !! k = None
        ∧ (o' !! k = ({[ "on" := VBool true ]} : gmap string val) !! k
           ↔ ({[ "on" := VBool true ]} : gmap string val) !! k = None).
Proof.
  exact (C2_toggle_returns_only_on {[ "on" := VBool true ]} toggleAction eq_refl).
Defined.

(** C7: for an action whose type is neither [toggle] nor [reset] the reducer
    throws an [Error] that names the type, whatever the state; no state comes
    out of the call, and a render that meets such an action among the pending
    ones throws the same error instead of producing a next state. *)
Theorem C7_unsupported_type_throws (s : jsstate) (a : Action) :
  type a ≠ actionTypes.toggle →
  type a ≠ actionTypes.reset →
  toggleReducer s a = Throw (Error ("Unsupported type: " ++ type a))
  ∧ (∀ s' : jsstate, toggleReducer s a ≠ Ok s')
  ∧ ∀ init : jsstate,
      useReducer toggleReducer init (Some (s, [a]))
      = Throw (Error ("Unsupported type: " ++ type a)).
Proof.
  intros Ht Hr.
  pose proof (toggleReducer_unsupported s a Ht Hr) as E.
  split; [exact E|]. split.
  - intros s'. rewrite E. discriminate.
  - intros init. simpl. rewrite E. reflexivity.
Qed.

Lemma C7_unsupported_type_throws_witness :
  toggleReducer (StObj {[ "on" := VBool true ]}) (mkAction "increment" StUndefined)
  = Throw (Error "Unsupported type: increment")
  ∧ (∀ s' : jsstate,
       toggleReducer (StObj {[ "on" := VBool true ]})
         (mkAction "increment" StUndefined) ≠ Ok s')
  ∧ ∀ init : jsstate,
      useReducer toggleReducer init
        (Some (StObj {[ "on" := VBool true ]}, [mkAction "increment" StUndefined]))
      = Throw (Error "Unsupported type: increment").
Proof.
  apply (C7_unsupported_type_throws (StObj {[ "on" := VBool true ]})
           (mkAction "increment" StUndefined)); discriminate.
Defined.

(** ** The missing-handler advisory *)

(** When its effect runs, [useReadOnlyWarning] logs its message exactly when
    the condition it hands to [warning] is false. *)
Lemma useReadOnlyWarning_logs (v : val) (name : string) (f : option Observer)
    (ro : val) (cells : option ReadOnlyDeps) :
  effect_due cells
    (not_nullish v, bool_decide (is_Some f), ro, name) = true →
  (useReadOnlyWarning v name f ro cells).2
  = if not_nullish v && negb (bool_decide (is_Some f)) && negb (truthy ro)
    then [] else [msg_read_only name].
Proof. intros Hdue. unfold useReadOnlyWarning. simpl. rewrite Hdue. reflexivity. Qed.

Lemma truthy_default_param (v : val) :
  truthy (default_param (VBool false) v) = truthy v.
Proof. by destruct v. Qed.

(** C1, evaluated on the code: in a development build the first render of
    any instance logs the missing-handler message exactly when the instance
    is NOT (controlled, without [onChange], and not [readOnly]).  So an
    instance that is given [on = true], no [onChange] and no [readOnly] logs
    nothing when it mounts, and the same instance with an [onChange] handler
    logs the missing-handler message. *)
Theorem C1_missing_handler_check_is_inverted :
  (∀ p : Props,
     console <$> mount true p
     = Ok (if not_nullish (controlledOn p)
              && negb (bool_decide (is_Some (onChange p)))
              && negb (truthy (readOnly p))
           then [] else [msg_read_only "on"]))
  ∧ console <$> mount true (mkProps VUndefined None None (VBool true) VUndefined)
    = Ok []
  ∧ console <$> mount true
      (mkProps VUndefined None (Some "handleToggleChange") (VBool true) VUndefined)
    = Ok [msg_read_only "on"].
Proof.
  split; [|split; vm_compute; reflexivity].
  intros p. unfold mount, useToggle. simpl.
  rewrite truthy_default_param.
  destruct (not_nullish (controlledOn p)), (bool_decide (is_Some (onChange p))),
    (truthy (readOnly p)); reflexivity.
Qed.

(** ** What a render binds *)

Lemma useToggle_bindings (dev : bool) (p : Props) (cells : option Hooks)
    (h : Hooks) (r : Render) (log : list string) :
  useToggle dev p cells = Ok (h, r, log) →
  onIsControlled r = not_nullish (controlledOn p)
  ∧ cur_reducer r = default toggleReducer (reducer p)
  ∧ cur_onChange r = onChange p
  ∧ cur_initialState r = initialStateRef h
  ∧ state r = reducerState h
  ∧ pendingActions h = []
  ∧ (if not_nullish (controlledOn p) then on r = controlledOn p
     else state_on (state r) = Ok (on r)).
Proof.
  unfold useToggle.
  destruct (useReducer _ _ _) as [st|e]; simpl; [|discriminate].
  destruct (diagnostics _ _ _ _ _) as [diag log'].
  destruct (not_nullish (controlledOn p)) eqn:Hc; simpl.
  - intros [= <- <- <-]. simpl. done.
  - destruct (state_on st) as [v|e] eqn:Hon; simpl; [|discriminate].
    intros [= <- <- <-]. simpl. done.
Qed.

Lemma observed_app (l1 l2 : list Event) :
  observed (l1 ++ l2) = (observed l1 ++ observed l2)%list.
Proof. unfold observed. apply omap_app. Qed.

Lemma dispatched_app (l1 l2 : list Event) :
  dispatched (l1 ++ l2) = (dispatched l1 ++ dispatched l2)%list.
Proof. unfold dispatched. apply omap_app. Qed.

(** The calls that the observer receives from one handler call. *)
Lemma dispatchWithOnChange_observed (r : Render) (a : Action) (f : Observer)
    (next : jsstate) :
  cur_onChange r = Some f →
  cur_reducer r (merged r) a = Ok next →
  observed (dispatchWithOnChange r a).1 = [(f, next, a)]
  ∧ (dispatchWithOnChange r a).2 = Ok ().
Proof.
  intros Hf Hnext. unfold dispatchWithOnChange, merged in *.
  rewrite Hf, Hnext. simpl. rewrite observed_app.
  destruct (onIsControlled r); done.
Qed.

Lemma dispatchWithOnChange_dispatched (r : Render) (a : Action) :
  dispatched (dispatchWithOnChange r a).1
  = if onIsControlled r then [] else [a].
Proof.
  unfold dispatchWithOnChange.
  destruct (cur_onChange r) as [f|]; simpl.
  - destruct (cur_reducer r _ a); simpl;
      [rewrite dispatched_app|]; destruct (onIsControlled r); done.
  - destruct (onIsControlled r); done.
Qed.

(** On a merged state, which is always an object, the built-in reducer
    answers both intents of the hook. *)
Lemma toggleReducer_merged_toggle (r : Render) :
  toggleReducer (merged r) toggleAction
  = Ok (StObj {[ "on" := VBool (negb (truthy (on r))) ]}).
Proof.
  unfold merged. rewrite toggleReducer_toggle by done.
  unfold get_field. by rewrite lookup_insert_eq.
Qed.

Lemma toggleReducer_merged_reset (r : Render) :
  toggleReducer (merged r) (resetAction (cur_initialState r))
  = Ok (StObj (cur_initialState r)).
Proof. by rewrite toggleReducer_reset. Qed.

(** C3: when an [onChange] observer is registered, [toggle()] and [reset()]
    each call it exactly once, with the state that the reducer computes for
    the intent and with the intent itself, whether the instance is controlled
    or not; with the built-in reducer that state always exists, so the call
    always happens. *)
Theorem C3_observer_called_once (dev : bool) (p : Props) (cells : option Hooks)
    (h : Hooks) (r : Render) (log : list string) (f : Observer) :
  useToggle dev p cells = Ok (h, r, log) →
  onChange p = Some f →
  let R := default toggleReducer (reducer p) in
  let resetIntent := resetAction (initialStateRef h) in
  (∀ next, R (merged r) toggleAction = Ok next →
     observed (toggle r).1 = [(f, next, toggleAction)])
  ∧ (∀ next, R (merged r) resetIntent = Ok next →
       observed (reset r).1 = [(f, next, resetIntent)])
  ∧ (reducer p = None →
       ∃ next1 next2,
         toggleReducer (merged r) toggleAction = Ok next1
         ∧ observed (toggle r).1 = [(f, next1, toggleAction)]
         ∧ toggleReducer (merged r) resetIntent = Ok next2
         ∧ observed (reset r).1 = [(f, next2, resetIntent)]).
Proof.
  intros Hr Hf R resetIntent.
  destruct (useToggle_bindings _ _ _ _ _ _ Hr)
    as (_ & HR & Hobs & Hinit & _).
  rewrite Hf in Hobs.
  assert (Ht : ∀ next, R (merged r) toggleAction = Ok next →
                 observed (toggle r).1 = [(f, next, toggleAction)]).
  { intros next Hn. apply dispatchWithOnChange_observed; [done|].
    by rewrite HR. }
  assert (Hre : ∀ next, R (merged r) resetIntent = Ok next →
                  observed (reset r).1 = [(f, next, resetIntent)]).
  { intros next Hn. unfold reset. rewrite Hinit.
    apply dispatchWithOnChange_observed; [done|]. by rewrite HR. }
  split; [exact Ht|]. split; [exact Hre|].
  intros Hdef. subst R. rewrite Hdef in Ht, Hre. simpl in Ht, Hre.
  eexists _, _. split; [apply toggleReducer_merged_toggle|].
  split; [apply Ht, toggleReducer_merged_toggle|].
  subst resetIntent. rewrite <- Hinit in *.
  split; [apply toggleReducer_merged_reset|].
  apply Hre, toggleReducer_merged_reset.
Qed.

Lemma C3_observer_called_once_witness :
  ∃ h r log,
    useToggle true (mkProps VUndefined None (Some "log") VUndefined VUndefined) None
    = Ok (h, r, log)
    ∧ observed (toggle r).1
      = [("log", StObj {[ "on" := VBool true ]}, toggleAction)]
    ∧ observed (reset r).1
      = [("log", StObj {[ "on" := VBool false ]},
          resetAction {[ "on" := VBool false ]})].
Proof.
  eexists _, _, _. split; [reflexivity|].
  destruct (C3_observer_called_once true
              (mkProps VUndefined None (Some "log") VUndefined VUndefined)
              None _ _ _ "log" eq_refl eq_refl) as (Ht & Hr & _).
  split; [apply Ht|apply Hr]; reflexivity.
Defined.

(** C10: the state suggested to a registered observer is the reducer applied
    to [{...state, on}], the internal state with its [on] replaced by the
    reported one; in a controlled instance the reported [on] is the supplied
    value, so the built-in reducer suggests the negation of the supplied
    value whatever the internal state holds. *)
Theorem C10_suggestion_from_reported_on (dev : bool) (p : Props)
    (cells : option Hooks) (h : Hooks) (r : Render) (log : list string)
    (f : Observer) :
  useToggle dev p cells = Ok (h, r, log) →
  onChange p = Some f →
  (∀ a next,
     default toggleReducer (reducer p)
       (StObj (<["on" := on r]> (spread (reducerState h)))) a = Ok next →
     observed (dispatchWithOnChange r a).1 = [(f, next, a)])
  ∧ (not_nullish (controlledOn p) = true →
       on r = controlledOn p
       ∧ (reducer p = None →
            observed (toggle r).1
            = [(f, StObj {[ "on" := VBool (negb (truthy (controlledOn p))) ]},
                toggleAction)])).
Proof.
  intros Hr Hf.
  destruct (useToggle_bindings _ _ _ _ _ _ Hr)
    as (_ & HR & Hobs & _ & Hst & _ & Hon).
  rewrite Hf in Hobs. split.
  - intros a next Hn. apply dispatchWithOnChange_observed; [done|].
    unfold merged. by rewrite HR, Hst.
  - intros Hc. rewrite Hc in Hon. split; [done|].
    intros Hdef. apply dispatchWithOnChange_observed; [done|].
    rewrite HR, Hdef. simpl. rewrite toggleReducer_merged_toggle.
    by rewrite Hon.
Qed.

Lemma C10_suggestion_from_reported_on_witness :
  let standby := mkHooks {[ "on" := VBool false ]}
                   (StObj {[ "on" := VBool false ]}) [] None in
  ∃ h r log,
    useToggle false (mkProps VUndefined None (Some "owner") (VBool true) VUndefined)
      (Some standby) = Ok (h, r, log)
    ∧ reducerState h = StObj {[ "on" := VBool false ]}
    ∧ on r = VBool true
    ∧ observed (toggle r).1
      = [("owner", StObj {[ "on" := VBool false ]}, toggleAction)].
Proof.
  intros standby. eexists _, _, _. split; [reflexivity|].
  split; [reflexivity|].
  destruct (C10_suggestion_from_reported_on false
              (mkProps VUndefined None (Some "owner") (VBool true) VUndefined)
              (Some standby) _ _ _ "owner" eq_refl eq_refl) as (_ & Hc).
  destruct (Hc eq_refl) as (Hon & Ht).
  split; [exact Hon|exact (Ht eq_refl)].
Defined.

(** ** Controlled instances *)

Lemma handle_standby (st : jsstate) (i : Instance) (a : Action) :
  standby st i →
  hooks (handle i (dispatchWithOnChange (rendered i) a)) = hooks i
  ∧ standby st (handle i (dispatchWithOnChange (rendered i) a)).
Proof.
  intros (Hst & Hq & Hc).
  assert (E : hooks (handle i (dispatchWithOnChange (rendered i) a)) = hooks i).
  { unfold handle. simpl. rewrite dispatchWithOnChange_dispatched, Hc.
    unfold enqueue. rewrite app_nil_r. by destruct (hooks i). }
  split; [exact E|]. unfold standby. rewrite E. done.
Qed.

Lemma rerender_standby (dev : bool) (st : jsstate) (p : Props) (i : Instance) :
  standby st i →
  not_nullish (controlledOn p) = true →
  ∃ i', rerender dev p i = Ok i'
        ∧ standby st i'
        ∧ on (rendered i') = controlledOn p.
Proof.
  intros (Hst & Hq & Hc) Hp. unfold rerender, useToggle. simpl.
  rewrite Hq, Hst, Hp. simpl.
  destruct (diagnostics _ _ _ _ _) as [diag log]. simpl.
  eexists. split; [reflexivity|]. done.
Qed.

Lemma run_standby (dev : bool) (st : jsstate) (script : list Step) :
  ∀ i, standby st i →
       Forall controlled_step script →
       ∃ i', run dev i script = Ok i'
             ∧ standby st i'
             ∧ on (rendered i') = external_value (on (rendered i)) script
             ∧ on_trace dev i script = external_values script.
Proof.
  induction script as [|s rest IH]; intros i Hi Hall.
  - exists i. done.
  - apply Forall_cons in Hall as [Hs Hrest]. destruct s as [p| |].
    + destruct (rerender_standby dev st p i Hi Hs) as (i1 & E1 & H1 & Hon).
      destruct (IH i1 H1 Hrest) as (i' & E' & H' & Hon' & Htr).
      exists i'. simpl. rewrite E1. simpl.
      split; [exact E'|]. split; [exact H'|].
      split; [by rewrite Hon', Hon|]. by rewrite Htr, Hon.
    + destruct (handle_standby st i toggleAction Hi) as (_ & H1).
      destruct (IH _ H1 Hrest) as (i' & E' & H' & Hon' & Htr).
      exists i'. simpl. done.
    + destruct (handle_standby st i (resetAction (cur_initialState (rendered i))) Hi)
        as (_ & H1).
      destruct (IH _ H1 Hrest) as (i' & E' & H' & Hon' & Htr).
      exists i'. simpl. done.
Qed.

Lemma mount_controlled (dev : bool) (p : Props) :
  not_nullish (controlledOn p) = true →
  ∃ i, mount dev p = Ok i
       ∧ standby (StObj {[ "on" := default_param (VBool false) (initialOn p) ]}) i
       ∧ on (rendered i) = controlledOn p.
Proof.
  intros Hp. unfold mount, useToggle. simpl. rewrite Hp. simpl.
  destruct (diagnostics _ _ _ _ _) as [diag log]. simpl.
  eexists. split; [reflexivity|]. done.
Qed.

(** C6: over a lifetime in which every render is given a non-null [on],
    whatever calls of [toggle()] and [reset()] come in between, every call
    leaves the cells of the instance as they are, so the internal state stays
    the one set up at mount and nothing is ever pending, and every render
    reports the supplied value. *)
Theorem C6_controlled_never_commits (dev : bool) (p0 : Props)
    (script : list Step) :
  not_nullish (controlledOn p0) = true →
  Forall controlled_step script →
  ∃ i0 i,
    mount dev p0 = Ok i0
    ∧ run dev i0 script = Ok i
    ∧ reducerState (hooks i)
      = StObj {[ "on" := default_param (VBool false) (initialOn p0) ]}
    ∧ pendingActions (hooks i) = []
    ∧ hooks (handle i (toggle (rendered i))) = hooks i
    ∧ hooks (handle i (reset (rendered i))) = hooks i
    ∧ on (rendered i0) = controlledOn p0
    ∧ on (rendered i) = external_value (controlledOn p0) script
    ∧ on_trace dev i0 script = external_values script.
Proof.
  intros Hp Hall.
  destruct (mount_controlled dev p0 Hp) as (i0 & E0 & H0 & Hon0).
  destruct (run_standby dev _ script i0 H0 Hall) as (i & E & Hi & Hon & Htr).
  exists i0, i. split; [exact E0|]. split; [exact E|].
  destruct Hi as (Hst & Hq & Hc). split; [exact Hst|]. split; [exact Hq|].
  split; [by apply (handle_standby (reducerState (hooks i)) i toggleAction)|].
  split; [by apply (handle_standby (reducerState (hooks i)) i (resetAction _))|].
  split; [exact Hon0|]. split; [by rewrite Hon, Hon0|exact Htr].
Qed.

Lemma C6_controlled_never_commits_witness :
  let owner v := mkProps VUndefined None (Some "owner") (VBool v) VUndefined in
  ∃ i0 i,
    mount true (owner false) = Ok i0
    ∧ run true i0 [CallToggle; Rerender (owner true); CallReset; CallToggle]
      = Ok i
    ∧ reducerState (hooks i) = StObj {[ "on" := VBool false ]}
    ∧ pendingActions (hooks i) = []
    ∧ on (rendered i) = VBool true
    ∧ on_trace true i0 [CallToggle; Rerender (owner true); CallReset; CallToggle]
      = [VBool true].
Proof.
  intros owner.
  destruct (C6_controlled_never_commits true (owner false)
              [CallToggle; Rerender (owner true); CallReset; CallToggle]
              eq_refl)
    as (i0 & i & E0 & E & Hst & Hq & _ & _ & _ & Hon & Htr).
  { repeat constructor. }
  exists i0, i. done.
Defined.

(** ** Self-owned instances with the built-in reducer *)

Lemma processQueue_app (R : Reducer) (s : jsstate) (q1 q2 : list Action) :
  processQueue R s (q1 ++ q2)
  = (s' ← processQueue R s q1; processQueue R s' q2).
Proof.
  revert s. induction q1 as [|a q1 IH]; intros s; simpl; [done|].
  destruct (R s a) as [s1|e]; simpl; [apply IH|done].
Qed.

Lemma committed_handle (i : Instance) (a : Action) :
  onIsControlled (rendered i) = false →
  committed (handle i (dispatchWithOnChange (rendered i) a))
  = (s ← committed i; toggleReducer s a).
Proof.
  intros Hc. unfold committed, handle. simpl.
  rewrite dispatchWithOnChange_dispatched, Hc, processQueue_app. simpl.
  destruct (processQueue _ _ _) as [s|e]; simpl; [|done].
  by destruct (toggleReducer s a).
Qed.

Lemma step_self_owned (dev : bool) (v0 : val) (o : gmap string val)
    (i : Instance) (s : Step) :
  self_owned v0 o i →
  self_owned_step s →
  ∃ i', step dev i s = Ok i'
        ∧ self_owned v0 (next_obj v0 o s) i'
        ∧ match s with
          | Rerender _ =>
              on (rendered i') = get_field o "on"
              ∧ reducerState (hooks i') = StObj o
              ∧ pendingActions (hooks i') = []
          | _ => True
          end.
Proof.
  intros (Href & Hinit & Hc & Hcom) Hs. destruct s as [p| |]; simpl.
  - destruct Hs as [Hp Hdef]. unfold committed in Hcom.
    unfold rerender, useToggle. simpl. rewrite Hdef, Hp. simpl.
    rewrite Hcom. simpl.
    destruct (diagnostics _ _ _ _ _) as [diag log]. simpl.
    eexists. split; [reflexivity|]. unfold self_owned, committed. simpl.
    done.
  - eexists. split; [reflexivity|]. split; [|done].
    unfold self_owned, toggle. rewrite committed_handle by done.
    rewrite Hcom. simpl. by rewrite toggleReducer_toggle.
  - eexists. split; [reflexivity|]. split; [|done].
    unfold self_owned, reset. rewrite committed_handle by done.
    rewrite Hcom, Hinit. simpl. by rewrite toggleReducer_reset.
Qed.

Lemma run_self_owned (dev : bool) (v0 : val) (script : list Step) :
  ∀ o i, self_owned v0 o i →
         Forall self_owned_step script →
         ∃ i', run dev i script = Ok i'
               ∧ self_owned v0 (foldl (next_obj v0) o script) i'
               ∧ on_trace dev i script = reported v0 o script.
Proof.
  induction script as [|s rest IH]; intros o i Hi Hall.
  - exists i. done.
  - apply Forall_cons in Hall as [Hs Hrest].
    destruct (step_self_owned dev v0 o i s Hi Hs) as (i1 & E1 & H1 & Hobs).
    destruct (IH _ i1 H1 Hrest) as (i' & E' & H' & Htr).
    exists i'. cbn [run on_trace foldl]. rewrite E1. simpl.
    split; [exact E'|]. split; [exact H'|].
    destruct s as [p| |]; simpl; [|exact Htr..].
    destruct Hobs as (Hon & _). by rewrite Hon, Htr.
Qed.

Lemma mount_self_owned (dev : bool) (p : Props) :
  not_nullish (controlledOn p) = false →
  reducer p = None →
  let v0 := default_param (VBool false) (initialOn p) in
  ∃ i, mount dev p = Ok i
       ∧ self_owned v0 {[ "on" := v0 ]} i
       ∧ on (rendered i) = v0.
Proof.
  intros Hp Hdef v0. unfold mount, useToggle. simpl. rewrite Hp. simpl.
  destruct (diagnostics _ _ _ _ _) as [diag log]. simpl.
  eexists. split; [reflexivity|]. unfold self_owned, committed. simpl.
  unfold get_field. by rewrite lookup_singleton_eq.
Qed.

Lemma run_app (dev : bool) (s1 s2 : list Step) :
  ∀ i, run dev i (s1 ++ s2) = (i' ← run dev i s1; run dev i' s2).
Proof.
  induction s1 as [|s rest IH]; intros i; simpl; [done|].
  destruct (step dev i s) as [i1|e]; simpl; [apply IH|done].
Qed.

(** Running a script and then rendering once more. *)
Lemma run_then_render (dev : bool) (v0 : val) (o : gmap string val)
    (i0 : Instance) (script : list Step) (p : Props) :
  self_owned v0 o i0 →
  Forall self_owned_step script →
  self_owned_step (Rerender p) →
  let o' := foldl (next_obj v0) o script in
  ∃ i, run dev i0 (script ++ [Rerender p]) = Ok i
       ∧ initialStateRef (hooks i) = {[ "on" := v0 ]}
       ∧ reducerState (hooks i) = StObj o'
       ∧ pendingActions (hooks i) = []
       ∧ on (rendered i) = get_field o' "on".
Proof.
  intros H0 Hall Hp o'.
  destruct (run_self_owned dev v0 script o i0 H0 Hall) as (i1 & E1 & H1 & _).
  destruct (step_self_owned dev v0 o' i1 (Rerender p) H1 Hp)
    as (i & E & (Href & _) & Hon & Hst & Hq).
  exists i. rewrite run_app, E1. simpl in *. rewrite E. done.
Qed.

(** *** Toggles only *)

Lemma toggling_self_owned (script : list Step) :
  Forall toggling_step script → Forall self_owned_step script.
Proof. intros H. eapply Forall_impl; [exact H|]. by intros [p| |]. Qed.

Lemma toggle_flips_parity (n : nat) :
  ({[ "on" := VBool (negb (truthy (get_field {[ "on" := VBool (Nat.odd n) ]} "on"))) ]}
     : gmap string val)
  = {[ "on" := VBool (Nat.odd (S n)) ]}.
Proof.
  unfold get_field. rewrite lookup_singleton_eq. simpl.
  by rewrite Nat.odd_succ, <- Nat.negb_odd.
Qed.

Lemma foldl_toggles (v0 : val) (script : list Step) :
  Forall toggling_step script →
  ∀ n, foldl (next_obj v0) {[ "on" := VBool (Nat.odd n) ]} script
       = {[ "on" := VBool (Nat.odd (toggles script + n)) ]}
       ∧ reported v0 {[ "on" := VBool (Nat.odd n) ]} script = parities n script.
Proof.
  induction 1 as [|s rest Hs _ IH]; intros n; [done|].
  destruct s as [p| |]; simpl in *; [| |done].
  - destruct (IH n) as [-> ->]. unfold get_field.
    by rewrite lookup_singleton_eq.
  - rewrite toggle_flips_parity. destruct (IH (S n)) as [-> ->].
    by rewrite Nat.add_succ_r.
Qed.

(** C4: an instance that mounts with [{on: false}], owns its state and uses
    the built-in reducer reports, at a render that follows N calls of
    [toggle()], [on] = (N is odd), however the calls are spread over the
    renders in between; each of these renders reports the parity of the calls
    before it, and three calls with a render after each are seen as true,
    false, true. *)
Theorem C4_toggle_parity (dev : bool) (p0 : Props) (script : list Step)
    (p : Props) :
  not_nullish (controlledOn p0) = false →
  reducer p0 = None →
  default_param (VBool false) (initialOn p0) = VBool false →
  Forall toggling_step script →
  not_nullish (controlledOn p) = false ∧ reducer p = None →
  ∃ i0 i,
    mount dev p0 = Ok i0
    ∧ on (rendered i0) = VBool false
    ∧ run dev i0 (script ++ [Rerender p]) = Ok i
    ∧ reducerState (hooks i) = StObj {[ "on" := VBool (Nat.odd (toggles script)) ]}
    ∧ on (rendered i) = VBool (Nat.odd (toggles script))
    ∧ on_trace dev i0 script = parities 0 script
    ∧ on_trace dev i0
        [CallToggle; Rerender p; CallToggle; Rerender p; CallToggle; Rerender p]
      = [VBool true; VBool false; VBool true].
Proof.
  intros Hp0 Hdef Hinit Hall Hp.
  destruct (mount_self_owned dev p0 Hp0 Hdef) as (i0 & E0 & H0 & Hon0).
  rewrite Hinit in H0, Hon0.
  pose proof (toggling_self_owned _ Hall) as Hall'.
  destruct (run_then_render dev _ _ i0 script p H0 Hall' Hp)
    as (i & E & _ & Hst & _ & Hon).
  destruct (foldl_toggles (VBool false) script Hall 0) as [Hfold Hrep].
  change (Nat.odd 0) with false in Hfold, Hrep.
  rewrite Nat.add_0_r in Hfold. cbv zeta in Hst, Hon.
  rewrite Hfold in Hst, Hon.
  destruct (run_self_owned dev _ script _ i0 H0 Hall') as (_ & _ & _ & Htr).
  rewrite Hrep in Htr.
  assert (H3 : Forall self_owned_step
                 [CallToggle; Rerender p; CallToggle; Rerender p;
                  CallToggle; Rerender p])
    by (repeat constructor; apply Hp).
  destruct (run_self_owned dev _ _ _ i0 H0 H3) as (_ & _ & _ & Htr3).
  exists i0, i. split; [exact E0|]. split; [exact Hon0|]. split; [exact E|].
  split; [exact Hst|]. split.
  - rewrite Hon. unfold get_field. by rewrite lookup_singleton_eq.
  - split; [exact Htr|]. rewrite Htr3. reflexivity.
Qed.

Lemma C4_toggle_parity_witness :
  ∃ i0 i,
    mount true defaultProps = Ok i0
    ∧ on (rendered i0) = VBool false
    ∧ run true i0
        [CallToggle; CallToggle; Rerender defaultProps; CallToggle;
         Rerender defaultProps] = Ok i
    ∧ on (rendered i) = VBool true
    ∧ on_trace true i0
        [CallToggle; Rerender defaultProps; CallToggle; Rerender defaultProps;
         CallToggle; Rerender defaultProps]
      = [VBool true; VBool false; VBool true].
Proof.
  destruct (C4_toggle_parity true defaultProps
              [CallToggle; CallToggle; Rerender defaultProps; CallToggle]
              defaultProps eq_refl eq_refl eq_refl)
    as (i0 & i & E0 & Hon0 & E & _ & Hon & _ & Htr).
  { repeat constructor. }
  { split; reflexivity. }
  exists i0, i. done.
Defined.

(** C5: in an instance that owns its state and uses the built-in reducer,
    after any calls of [toggle()] and [reset()] and any renders, also renders
    that are given another [initialOn], a call of [reset()] makes the next
    render read and report exactly the initial state [{on: initialOn}] of the
    first render. *)
Theorem C5_reset_restores_initial (dev : bool) (p0 : Props)
    (script : list Step) (p : Props) :
  not_nullish (controlledOn p0) = false →
  reducer p0 = None →
  Forall self_owned_step script →
  not_nullish (controlledOn p) = false ∧ reducer p = None →
  let v0 := default_param (VBool false) (initialOn p0) in
  ∃ i0 i,
    mount dev p0 = Ok i0
    ∧ run dev i0 (script ++ [CallReset; Rerender p]) = Ok i
    ∧ initialStateRef (hooks i) = {[ "on" := v0 ]}
    ∧ reducerState (hooks i) = StObj {[ "on" := v0 ]}
    ∧ pendingActions (hooks i) = []
    ∧ on (rendered i) = v0.
Proof.
  intros Hp0 Hdef Hall Hp v0.
  destruct (mount_self_owned dev p0 Hp0 Hdef) as (i0 & E0 & H0 & _).
  assert (Hall' : Forall self_owned_step (script ++ [CallReset])).
  { apply Forall_app. split; [exact Hall|]. by repeat constructor. }
  destruct (run_then_render dev _ _ i0 _ p H0 Hall' Hp)
    as (i & E & Href & Hst & Hq & Hon).
  rewrite foldl_app in Hst, Hon. simpl in Hst, Hon.
  rewrite <- app_assoc in E. simpl in E.
  exists i0, i. split; [exact E0|]. split; [exact E|].
  split; [exact Href|]. split; [exact Hst|]. split; [exact Hq|].
  rewrite Hon. unfold get_field. by rewrite lookup_singleton_eq.
Qed.

Lemma C5_reset_restores_initial_witness :
  let start := mkProps (VBool true) None None VUndefined VUndefined in
  let later := mkProps (VBool false) None None VUndefined VUndefined in
  ∃ i0 i,
    mount true start = Ok i0
    ∧ run true i0
        [CallToggle; Rerender later; CallToggle; CallToggle; CallReset;
         Rerender later] = Ok i
    ∧ reducerState (hooks i) = StObj {[ "on" := VBool true ]}
    ∧ on (rendered i) = VBool true.
Proof.
  intros start later.
  destruct (C5_reset_restores_initial true start
              [CallToggle; Rerender later; CallToggle; CallToggle] later
              eq_refl eq_refl)
    as (i0 & i & E0 & E & _ & Hst & _ & Hon).
  { repeat constructor. }
  { split; reflexivity. }
  exists i0, i. done.
Defined.

(** ** The mode-change advisory *)

Lemma switch_warnings_mount (v : val) (rest : list val) :
  switch_warnings None (v :: rest)
  = switch_warnings
      (Some (mkSwitchCells (not_nullish v) (not_nullish v, not_nullish v))) rest.
Proof. simpl. by destruct (not_nullish v). Qed.

(** While the mode is the one of the previous render the effect does not
    run. *)
Lemma switch_warnings_stay (w m : bool) (vs : list val) :
  Forall (λ v, not_nullish v = m) vs →
  switch_warnings (Some (mkSwitchCells w (w, m))) vs = [].
Proof.
  induction 1 as [|v vs Hv _ IH]; [done|].
  simpl. rewrite Hv. unfold effect_due.
  rewrite bool_decide_eq_true_2 by done. simpl. exact IH.
Qed.

(** At the first render in the other mode the effect runs and logs the
    message for that direction. *)
Lemma switch_warnings_leave (w : bool) (v : val) (vs : list val) :
  not_nullish v = negb w →
  switch_warnings (Some (mkSwitchCells w (w, w))) (v :: vs)
  = (if w then msg_controlled_to_uncontrolled
     else msg_uncontrolled_to_controlled)
    :: switch_warnings (Some (mkSwitchCells w (w, negb w))) vs.
Proof. intros Hv. simpl. rewrite Hv. by destruct w. Qed.

(** Whatever the renders so far, the log depends on the modes only: one
    message per render that leaves the mode of the first render. *)
Lemma switch_warnings_from (w m : bool) (vs : list val) :
  switch_warnings (Some (mkSwitchCells w (w, m))) vs
  = repeat (switch_message w) (departures w m (not_nullish <$> vs)).
Proof.
  revert m. induction vs as [|v vs IH]; intros m; [done|].
  cbn [switch_warnings fmap list_fmap departures].
  unfold useControlledSwitchWarning. simpl. rewrite IH. unfold effect_due.
  destruct w, m, (not_nullish v); reflexivity.
Qed.

(** One more render adds a departure exactly when it is in the other mode
    than the first render and the render before it was in the mode of the
    first. *)
Lemma departures_snoc (first : bool) (modes : list bool) :
  ∀ (prev m : bool),
    departures first prev (modes ++ [m])
    = (departures first prev modes
       + (if bool_decide (m ≠ first)
             && bool_decide (default prev (last modes) = first)
          then 1 else 0))%nat.
Proof.
  induction modes as [|x modes IH]; intros prev m.
  - simpl. lia.
  - cbn [app departures]. rewrite IH, last_cons.
    destruct (last modes); simpl; lia.
Qed.

(** A single change of mode, after any number of renders in the first
    mode. *)
Lemma switch_warnings_single_change (w : bool) (xs ys : list val) :
  Forall (λ v, not_nullish v = w) xs →
  Forall (λ v, not_nullish v = negb w) ys →
  ys ≠ [] →
  switch_warnings (Some (mkSwitchCells w (w, w))) (xs ++ ys)
  = [switch_message w].
Proof.
  intros Hxs Hys Hne. induction Hxs as [|x xs Hx _ IH].
  - destruct Hys as [|y ys Hy Hys]; [done|]. simpl app.
    rewrite switch_warnings_leave by done.
    by rewrite switch_warnings_stay.
  - simpl. rewrite Hx. unfold effect_due.
    rewrite bool_decide_eq_true_2 by done. simpl. exact IH.
Qed.

(** C8: over any renders of one instance, with [first] the mode of the
    first render (controlled or not), a render logs the mode-change message
    exactly once when it is in the other mode than the first render and the
    render before it was in the mode of the first, and logs nothing in every
    other case: not while the mode stays the one of the first render, not
    while the instance stays in the other mode, and not on the way back.  The
    message is the uncontrolled-to-controlled one when the first render had
    no value and the controlled-to-uncontrolled one when it had.  So the
    whole log is one message per such transition; a lifetime in one mode
    logs nothing, and a lifetime with a single change of mode logs exactly
    one message. *)
Theorem C8_mode_change_advisory (v0 : val) (vs : list val) :
  let first := not_nullish v0 in
  let message := if first then msg_controlled_to_uncontrolled
                 else msg_uncontrolled_to_controlled in
  (∀ v : val,
     switch_warnings None (v0 :: vs ++ [v])
     = (switch_warnings None (v0 :: vs)
        ++ (if bool_decide (not_nullish v ≠ first)
               && bool_decide (not_nullish (default v0 (last vs)) = first)
            then [message] else []))%list)
  ∧ switch_warnings None (v0 :: vs)
    = repeat message (departures first first (not_nullish <$> vs))
  ∧ (Forall (λ v, not_nullish v = first) vs →
       switch_warnings None (v0 :: vs) = []
       ∧ ∀ ws : list val,
           ws ≠ [] →
           Forall (λ v, not_nullish v = negb first) ws →
           switch_warnings None (v0 :: vs ++ ws) = [message]).
Proof.
  intros first message.
  assert (Hlaw : ∀ l, switch_warnings None (v0 :: l)
                      = repeat message
                          (departures first first (not_nullish <$> l))).
  { intros l. rewrite switch_warnings_mount. apply switch_warnings_from. }
  split; [|split].
  - intros v. rewrite !Hlaw, fmap_app.
    change (not_nullish <$> [v]) with [not_nullish v].
    rewrite departures_snoc, repeat_app. f_equal. rewrite fmap_last.
    assert (Hlast : default first (not_nullish <$> last vs)
                    = not_nullish (default v0 (last vs)))
      by (by destruct (last vs)).
    rewrite Hlast.
    by destruct (bool_decide (not_nullish v ≠ first)
                 && bool_decide (not_nullish (default v0 (last vs)) = first)).
  - apply Hlaw.
  - intros Hvs. split.
    + rewrite switch_warnings_mount. by apply switch_warnings_stay.
    + intros ws Hne Hws. rewrite switch_warnings_mount.
      by apply switch_warnings_single_change.
Qed.

Lemma C8_mode_change_advisory_witness :
  switch_warnings None [VUndefined; VBool true; VNull; VBool false]
  = [msg_uncontrolled_to_controlled; msg_uncontrolled_to_controlled]
  ∧ switch_warnings None [VUndefined; VBool true; VNull]
    = [msg_uncontrolled_to_controlled]
  ∧ switch_warnings None [VUndefined; VNull] = []
  ∧ switch_warnings None [VBool true; VBool false] = []
  ∧ switch_warnings None [VUndefined; VNull; VBool true; VBool false]
    = [msg_uncontrolled_to_controlled]
  ∧ switch_warnings None [VBool true; VBool false; VUndefined; VNull]
    = [msg_controlled_to_uncontrolled].
Proof.
  destruct (C8_mode_change_advisory VUndefined [VBool true; VNull])
    as (Hnext & Hall & _).
  destruct (C8_mode_change_advisory VUndefined [VNull]) as (_ & _ & Hu).
  destruct (C8_mode_change_advisory (VBool true) [VBool false]) as (_ & _ & Hc).
  destruct Hu as [Hu0 Hu1]; [repeat constructor|].
  destruct Hc as [Hc0 Hc1]; [repeat constructor|].
  split; [exact (Hnext (VBool false))|]. split; [exact Hall|].
  split; [exact Hu0|]. split; [exact Hc0|]. split.
  - apply (Hu1 [VBool true; VBool false]); [discriminate|repeat constructor].
  - apply (Hc1 [VUndefined; VNull]); [discriminate|repeat constructor].
Defined.

(** ** The advisory hooks do not influence what the hook computes *)

Lemma useToggle_core (dev1 dev2 : bool) (p1 p2 : Props) (c1 c2 : option Hooks) :
  core_props p1 = core_props p2 →
  core_cells <$> c1 = core_cells <$> c2 →
  match useToggle dev1 p1 c1, useToggle dev2 p2 c2 with
  | Ok (h1, r1, _), Ok (h2, r2, _) => core_cells h1 = core_cells h2 ∧ r1 = r2
  | Throw e1, Throw e2 => e1 = e2
  | _, _ => False
  end.
Proof.
  destruct p1 as [io1 R1 f1 v1 ro1], p2 as [io2 R2 f2 v2 ro2].
  intros [= -> -> -> ->] Hc. unfold useToggle. simpl.
  assert (Href : initialStateRef <$> c1 = initialStateRef <$> c2).
  { destruct c1 as [[]|], c2 as [[]|]; simplify_eq/=; done. }
  assert (Hst : (λ h, (reducerState h, pendingActions h)) <$> c1
                = (λ h, (reducerState h, pendingActions h)) <$> c2).
  { destruct c1 as [[]|], c2 as [[]|]; simplify_eq/=; done. }
  rewrite Href, Hst.
  destruct (useReducer _ _ _) as [st|e]; simpl; [|done].
  destruct (if not_nullish v2 then Ok v2 else state_on st) as [v|e]; simpl;
    [|done].
  destruct (diagnostics dev1 _ _ _ _) as [d1 l1].
  destruct (diagnostics dev2 _ _ _ _) as [d2 l2]. done.
Qed.

Lemma handle_core (i1 i2 : Instance) (a : Action) :
  returned i1 = returned i2 →
  returned (handle i1 (dispatchWithOnChange (rendered i1) a))
  = returned (handle i2 (dispatchWithOnChange (rendered i2) a)).
Proof.
  unfold returned, core_cells. intros [= Href Hst Hq Hr Hn Hu].
  unfold handle, enqueue. simpl. by rewrite Href, Hst, Hq, Hr, Hn, Hu.
Qed.

Lemma step_core (dev1 dev2 : bool) (i1 i2 : Instance) (s1 s2 : Step) :
  returned i1 = returned i2 →
  core_step s1 = core_step s2 →
  agree (step dev1 i1 s1) (step dev2 i2 s2)
  ∧ match s1, s2 with
    | Rerender _, Rerender _ | CallToggle, CallToggle | CallReset, CallReset =>
        True
    | _, _ => False
    end.
Proof.
  intros Hi Hs. pose proof Hi as Hi'. unfold returned, core_cells in Hi'.
  injection Hi' as Href Hst Hq Hr Hn Hu.
  destruct s1 as [p1| |], s2 as [p2| |]; simpl in Hs; try discriminate;
    (split; [|exact I]).
  - assert (Hp : core_props p1 = core_props p2) by congruence.
    pose proof (useToggle_core dev1 dev2 p1 p2 (Some (hooks i1))
                  (Some (hooks i2)) Hp) as Hcore.
    assert (Hc : core_cells <$> Some (hooks i1) = core_cells <$> Some (hooks i2))
      by (unfold core_cells; simpl; congruence).
    specialize (Hcore Hc). simpl. unfold rerender.
    destruct (useToggle dev1 p1 _) as [[[h1 r1] l1]|e1],
             (useToggle dev2 p2 _) as [[[h2 r2] l2]|e2]; simpl; try done.
    destruct Hcore as [Hh ->]. unfold returned. simpl. by rewrite Hh, Hn, Hu.
  - by apply handle_core.
  - simpl. unfold reset. rewrite <- Hr at 2. by apply handle_core.
Qed.

Lemma run_core (dev1 dev2 : bool) (s1 : list Step) :
  ∀ (s2 : list Step) (i1 i2 : Instance),
    returned i1 = returned i2 →
    core_step <$> s1 = core_step <$> s2 →
    agree (run dev1 i1 s1) (run dev2 i2 s2)
    ∧ on_trace dev1 i1 s1 = on_trace dev2 i2 s2.
Proof.
  induction s1 as [|a1 s1 IH]; intros [|a2 s2] i1 i2 Hi Hs;
    simpl in Hs; try discriminate.
  - done.
  - injection Hs as Ha Hs.
    destruct (step_core dev1 dev2 i1 i2 a1 a2 Hi Ha) as [Hstep Hkind].
    simpl. unfold agree in Hstep.
    destruct (step dev1 i1 a1) as [j1|e1], (step dev2 i2 a2) as [j2|e2];
      simpl; try done.
    destruct (IH s2 j1 j2 Hstep Hs) as [Hrun Htr]. split; [exact Hrun|].
    assert (Hon : on (rendered j1) = on (rendered j2)).
    { unfold returned in Hstep. congruence. }
    destruct a1, a2; try done. by rewrite Hon, Htr.
Qed.

(** C9: two lifetimes that differ only in whether the advisory hooks run and
    in the [readOnly] option given to each render end alike: both throw the
    same exception, or both return, with the same internal state and pending
    actions, the same bindings (the reported [on] among them), the same
    calls made to the observers, with the same arguments, and the same
    escaped exceptions; and their renders report the same values of [on]. *)
Theorem C9_diagnostics_do_not_interfere (dev1 dev2 : bool) (p1 p2 : Props)
    (s1 s2 : list Step) :
  core_props p1 = core_props p2 →
  core_step <$> s1 = core_step <$> s2 →
  agree (lifetime dev1 p1 s1) (lifetime dev2 p2 s2)
  ∧ reported_on dev1 p1 s1 = reported_on dev2 p2 s2.
Proof.
  intros Hp Hs. unfold lifetime, reported_on, mount.
  pose proof (useToggle_core dev1 dev2 p1 p2 None None Hp eq_refl) as Hcore.
  destruct (useToggle dev1 p1 None) as [[[h1 r1] l1]|e1],
           (useToggle dev2 p2 None) as [[[h2 r2] l2]|e2]; simpl; try done.
  destruct Hcore as [Hh ->].
  destruct (run_core dev1 dev2 s1 s2
              (mkInstance h1 r2 l1 [] []) (mkInstance h2 r2 l2 [] []))
    as [Hrun Htr]; [|exact Hs|].
  - unfold returned. simpl. by rewrite Hh.
  - split; [exact Hrun|]. by rewrite Htr.
Qed.

Lemma C9_diagnostics_do_not_interfere_witness :
  let strict := mkProps VUndefined None (Some "log") VUndefined (VBool false) in
  let lax := mkProps VUndefined None (Some "log") VUndefined (VBool true) in
  agree (lifetime true strict [CallToggle; Rerender strict; CallReset])
        (lifetime false lax [CallToggle; Rerender lax; CallReset])
  ∧ reported_on true strict [CallToggle; Rerender strict; CallReset]
    = reported_on false lax [CallToggle; Rerender lax; CallReset].
Proof.
  intros strict lax.
  apply (C9_diagnostics_do_not_interfere true false strict lax
           [CallToggle; Rerender strict; CallReset]
           [CallToggle; Rerender lax; CallReset]); reflexivity.
Defined.

(** * Further properties *)

(** ** [callAll] *)

(** X1: calling the functions of two lists in a row is calling those of the
    first list and then, unless one of them threw, those of the second; once
    a function throws, none of the later ones is called. *)
Theorem callAll_app {A E} (fns1 fns2 : list (option (Fn A E))) (args : A) :
  callAll (fns1 ++ fns2) args
  = match callAll fns1 args with
    | (evs, Ok _) =>
        ((evs ++ (callAll fns2 args).1)%list, (callAll fns2 args).2)
    | (evs, Throw e) => (evs, Throw e)
    end.
Proof.
  induction fns1 as [|[fn|] fns1 IH]; simpl.
  - by destruct (callAll fns2 args).
  - destruct (fn args) as [evs [[]|e]]; [|done]. rewrite IH.
    destruct (callAll fns1 args) as [evs1 [[]|e1]]; simpl; [|done].
    by rewrite app_assoc.
  - exact IH.
Qed.

(** X2: the entries that are [undefined] do not matter: calling a list is
    calling the functions that are present in it, in their order. *)
Theorem callAll_skips_undefined {A E} (fns : list (option (Fn A E))) (args : A) :
  callAll fns args = callAll (Some <$> omap id fns) args.
Proof.
  induction fns as [|[fn|] fns IH]; simpl; [done| |exact IH].
  by rewrite IH.
Qed.

(** ** The prop getters *)

(** X3: a click on the props of [getTogglerProps] runs the caller's
    [onClick] first and [toggle] after it; when the caller's handler throws,
    [toggle] is not run, so nothing is dispatched and the observer is not
    called; without a caller's handler, and with no argument at all, the click
    is [toggle]. *)
Theorem getTogglerProps_click {A E} (lift : Event → E) (r : Render)
    (fn : Fn A E) (props : gmap string val) (args : A) :
  handleClick (getTogglerProps lift r (Some (mkGetterArg (Some fn) props))) args
  = match fn args with
    | (evs, Ok _) => ((evs ++ (lift <$> (toggle r).1))%list, (toggle r).2)
    | (evs, Throw e) => (evs, Throw e)
    end
  ∧ handleClick (getTogglerProps lift r (Some (mkGetterArg None props))) args
    = (lift <$> (toggle r).1, (toggle r).2)
  ∧ handleClick (getTogglerProps lift r None) args
    = (lift <$> (toggle r).1, (toggle r).2).
Proof.
  unfold getTogglerProps, asFn. simpl.
  destruct (toggle r) as [tev [[]|te]], (fn args) as [evs [[]|e]]; simpl;
    by rewrite ?app_nil_r.
Qed.

(** X4: the props of [getTogglerProps] keep every property that the caller
    passed, with its value, and add ['aria-pressed'] with the reported [on]
    unless the caller passed an ['aria-pressed'] of its own, which wins. *)
Theorem getTogglerProps_attrs {A E} (lift : Event → E) (r : Render)
    (click : option (Fn A E)) (props : gmap string val) :
  let el := getTogglerProps lift r (Some (mkGetterArg click props)) in
  attrs el !! "aria-pressed" = Some (default (on r) (props !! "aria-pressed"))
  ∧ (∀ k, k ≠ "aria-pressed" → attrs el !! k = props !! k)
  ∧ attrs (getTogglerProps lift r (None : option (GetterArg A E)))
    = {[ "aria-pressed" := on r ]}.
Proof.
  unfold getTogglerProps. simpl. split; [|split].
  - rewrite lookup_union. destruct (props !! "aria-pressed"); simpl;
      by rewrite lookup_singleton_eq.
  - intros k Hk. rewrite lookup_union, lookup_singleton_ne by done.
    by destruct (props !! k).
  - apply (left_id_L ∅ (∪)).
Qed.

(** X5: the props of [getResetterProps] are exactly the caller's props, and
    a click on them runs the caller's [onClick] first and [reset] after it,
    unless the caller's handler throws. *)
Theorem getResetterProps_spec {A E} (lift : Event → E) (r : Render)
    (fn : Fn A E) (props : gmap string val) (args : A) :
  attrs (getResetterProps lift r (Some (mkGetterArg (Some fn) props))) = props
  ∧ handleClick (getResetterProps lift r (Some (mkGetterArg (Some fn) props))) args
    = match fn args with
      | (evs, Ok _) => ((evs ++ (lift <$> (reset r).1))%list, (reset r).2)
      | (evs, Throw e) => (evs, Throw e)
      end
  ∧ attrs (getResetterProps lift r (None : option (GetterArg A E))) = ∅
  ∧ handleClick (getResetterProps lift r None) args
    = (lift <$> (reset r).1, (reset r).2).
Proof.
  unfold getResetterProps, asFn. simpl.
  destruct (reset r) as [tev [[]|te]], (fn args) as [evs [[]|e]]; simpl;
    by rewrite ?app_nil_r.
Qed.

(** X6: the switch that [Toggle] renders gets the reported [on] both as
    [on] and as ['aria-pressed'] and nothing else, and a click on it is the
    [toggle] of that render; in a controlled [Toggle] the reported [on] is
    the [on] prop. *)
Theorem Toggle_switch_props {A} (dev : bool) (v : val) (f : option Observer)
    (ro : val) (cells : option Hooks) (h : Hooks) (el : ElementProps A Event)
    (log : list string) :
  Toggle dev v f ro cells = Ok (h, el, log) →
  ∃ r, useToggle dev (mkProps VUndefined None f v ro) cells = Ok (h, r, log)
       ∧ attrs el = {[ "aria-pressed" := on r; "on" := on r ]}
       ∧ (∀ args, handleClick el args = toggle r)
       ∧ (not_nullish v = true → on r = v).
Proof.
  unfold Toggle. intros H.
  destruct (useToggle _ _ _) as [[[h' r] log']|e] eqn:Hr; simpl in H; [|done].
  injection H as <- <- <-. exists r. split; [done|].
  destruct (useToggle_bindings _ _ _ _ _ _ Hr) as (_ & _ & _ & _ & _ & _ & Hon).
  simpl in Hon. split; [|split].
  - unfold getTogglerProps. simpl. apply map_eq. intros k.
    rewrite lookup_union, lookup_insert, !lookup_singleton.
    repeat case_decide; simplify_eq; done.
  - intros args. unfold getTogglerProps, asFn. simpl.
    destruct (toggle r) as [tev [[]|te]]; simpl;
      by rewrite ?app_nil_r, list_fmap_id.
  - intros Hv. by rewrite Hv in Hon.
Qed.

(** ** Handlers without an observer, and reducers that throw *)

(** X7: when no [onChange] is registered the handlers never call the
    reducer, so with any reducer they return normally; a controlled instance
    then does nothing at all, and an instance that owns its state only
    dispatches the intent. *)
Theorem no_observer_no_reducer_call (dev : bool) (p : Props)
    (cells : option Hooks) (h : Hooks) (r : Render) (log : list string) :
  useToggle dev p cells = Ok (h, r, log) →
  onChange p = None →
  toggle r
  = (if not_nullish (controlledOn p) then [] else [EvDispatch toggleAction],
     Ok ())
  ∧ reset r
    = (if not_nullish (controlledOn p) then []
       else [EvDispatch (resetAction (initialStateRef h))],
       Ok ()).
Proof.
  intros Hr Hf.
  destruct (useToggle_bindings _ _ _ _ _ _ Hr)
    as (Hc & _ & Hobs & Hinit & _).
  unfold toggle, reset, dispatchWithOnChange.
  by rewrite Hobs, Hf, Hc, Hinit.
Qed.

(** X8: when the reducer throws while the suggestion for a registered
    observer is computed, the observer is not called and the exception
    reaches the caller; an instance that owns its state has dispatched the
    intent before that, a controlled one has done nothing. *)
Theorem throwing_reducer_after_dispatch (dev : bool) (p : Props)
    (cells : option Hooks) (h : Hooks) (r : Render) (log : list string)
    (f : Observer) (a : Action) (e : JsError) :
  useToggle dev p cells = Ok (h, r, log) →
  onChange p = Some f →
  default toggleReducer (reducer p) (merged r) a = Throw e →
  dispatchWithOnChange r a
  = (if not_nullish (controlledOn p) then [] else [EvDispatch a], Throw e).
Proof.
  intros Hr Hf He.
  destruct (useToggle_bindings _ _ _ _ _ _ Hr) as (Hc & HR & Hobs & _).
  unfold dispatchWithOnChange. unfold merged in He.
  by rewrite Hobs, Hf, HR, He, Hc.
Qed.

(** ** Rendering again *)

(** X14: a render with the options of the render before it, when nothing was
    dispatched in between, returns the same cells and the same bindings and
    logs nothing: no advisory is repeated while the options stay the same. *)
Theorem rerender_idempotent (dev : bool) (p : Props) (cells : option Hooks)
    (h : Hooks) (r : Render) (log : list string) :
  useToggle dev p cells = Ok (h, r, log) →
  useToggle dev p (Some h) = Ok (h, r, []).
Proof.
  unfold useToggle.
  destruct (useReducer _ _ _) as [st|e]; simpl; [|done].
  destruct (if not_nullish (controlledOn p) then Ok (controlledOn p)
            else state_on st) as [v|e] eqn:Hon; simpl; [|done].
  destruct (diagnostics dev _ _ _ (cells ≫= diagCells)) as [diag log'] eqn:Hd.
  intros [= <- <- <-]. simpl. rewrite Hon. simpl.
  assert (Hd' : diagnostics dev (controlledOn p) (onChange p)
                  (default_param (VBool false) (readOnly p)) diag
                = (diag, [])).
  { unfold diagnostics in *. destruct dev; [|by injection Hd as <- _].
    destruct (useControlledSwitchWarning _ (switchCells <$> _))
      as [sw l1] eqn:Hsw.
    destruct (useReadOnlyWarning _ _ _ _ (readOnlyCells <$> _))
      as [ro l2] eqn:Hro.
    injection Hd as <- _. unfold useReadOnlyWarning in Hro.
    injection Hro as <- _. unfold useControlledSwitchWarning in Hsw.
    injection Hsw as <- _. unfold useControlledSwitchWarning. simpl.
    unfold effect_due. by rewrite !(bool_decide_eq_true_2 (_ = _)). }
  by rewrite Hd'.
Qed.

(** X13: in a production build nothing is ever logged and the advisory
    hooks keep no cells, whatever the options and the calls. *)
Theorem production_logs_nothing (p : Props) (script : list Step) (i : Instance) :
  lifetime false p script = Ok i →
  console i = [] ∧ diagCells (hooks i) = None.
Proof.
  unfold lifetime.
  assert (Hrun : ∀ s j j', console j = [] ∧ diagCells (hooks j) = None →
                   run false j s = Ok j' →
                   console j' = [] ∧ diagCells (hooks j') = None).
  { induction s as [|st s IH]; intros j j' Hj; simpl.
    - by intros [= <-].
    - destruct (step false j st) as [j1|e] eqn:Hst; simpl; [|done].
      apply IH. destruct st as [q| |]; simpl in Hst.
      + unfold rerender, useToggle in Hst.
        destruct (useReducer _ _ _) as [s0|e]; simpl in Hst; [|done].
        destruct (if not_nullish (controlledOn q) then _ else _) as [v|e];
          simpl in Hst; [|done].
        injection Hst as <-. simpl. destruct Hj as [-> _]. done.
      + injection Hst as <-. simpl. by destruct Hj as [-> ->].
      + injection Hst as <-. simpl. by destruct Hj as [-> ->]. }
  destruct (mount false p) as [i0|e] eqn:Hm; simpl; [|done].
  apply Hrun. unfold mount, useToggle in Hm. simpl in Hm.
  destruct (if not_nullish (controlledOn p) then _ else _) as [v|e];
    simpl in Hm; [|done].
  by injection Hm as <-.
Qed.

(** ** The mode-change advisory over any sequence of renders *)

(** X12: over any sequence of renders, the mode-change message is logged
    once at each render that leaves the mode of the first render, coming from
    a render in that mode, and at no other render: not on the way back, and
    not while the instance stays in the other mode.  Every message is the one
    for leaving the mode of the first render. *)
Theorem switch_warnings_departures (v : val) (vs : list val) :
  switch_warnings None (v :: vs)
  = repeat (switch_message (not_nullish v))
      (departures (not_nullish v) (not_nullish v) (not_nullish <$> vs)).
Proof. rewrite switch_warnings_mount. apply switch_warnings_from. Qed.

(** ** The reducer over several actions *)

(** X15: any number k ≥ 1 of toggles in a row leave the state
    [{on: b}] with [b] the truthiness of the first [on] when k is even and
    its negation when k is odd; so two toggles turn an [on] that is no
    boolean into the boolean of the same truthiness, and drop every other
    field. *)
Theorem toggles_in_a_row (o : gmap string val) (k : nat) :
  processQueue toggleReducer (StObj o) (repeat toggleAction (S k))
  = Ok (StObj {[ "on" := VBool (xorb (truthy (get_field o "on")) (Nat.even k)) ]}).
Proof.
  revert o. induction k as [|k IH]; intros o.
  - change (repeat toggleAction 1) with [toggleAction].
    cbn [processQueue]. rewrite toggleReducer_toggle by done.
    change (Nat.even 0) with true. by rewrite xorb_true_r.
  - change (repeat toggleAction (S (S k)))
      with (toggleAction :: repeat toggleAction (S k)).
    cbn [processQueue]. rewrite toggleReducer_toggle by done.
    cbn [mbind Res_bind]. rewrite IH. unfold get_field at 1.
    rewrite lookup_singleton_eq. cbn [default truthy].
    rewrite Nat.even_succ, <- Nat.negb_even.
    unfold id. cbn [truthy].
    by destruct (truthy (get_field o "on")), (Nat.even k).
Qed.

(** X16: a [reset] action that carries no [initialState] makes the state
    [undefined], whatever it was, and a toggle that follows throws a
    [TypeError]; the actions after it are not processed. *)
Theorem reset_without_payload (s : jsstate) (a : Action) (rest : list Action) :
  type a = actionTypes.reset →
  initialState a = StUndefined →
  toggleReducer s a = Ok StUndefined
  ∧ processQueue toggleReducer s (a :: toggleAction :: rest)
    = Throw (TypeError "Cannot read properties of undefined (reading 'on')").
Proof.
  intros Ht Hi. split.
  - by rewrite toggleReducer_reset, Hi.
  - simpl. by rewrite toggleReducer_reset, Hi.
Qed.

(** ** Self-owned instances: what the observer is told *)

(** The render of an instance that owns its state, in full. *)
Lemma rerender_self_owned (dev : bool) (v0 : val) (o : gmap string val)
    (i : Instance) (p : Props) :
  self_owned v0 o i →
  not_nullish (controlledOn p) = false ∧ reducer p = None →
  ∃ i', rerender dev p i = Ok i'
        ∧ self_owned v0 o i'
        ∧ reducerState (hooks i') = StObj o
        ∧ pendingActions (hooks i') = []
        ∧ rendered i'
          = mkRender (get_field o "on") false (StObj o) toggleReducer
              (onChange p) {[ "on" := v0 ]}
        ∧ notified i' = notified i
        ∧ uncaught i' = uncaught i.
Proof.
  intros (Href & Hinit & Hc & Hcom) [Hp Hdef]. unfold committed in Hcom.
  unfold rerender, useToggle. simpl. rewrite Hdef, Hp. simpl.
  rewrite Hcom. simpl.
  destruct (diagnostics _ _ _ _ _) as [diag log]. simpl.
  eexists. split; [reflexivity|]. unfold self_owned, committed. simpl.
  by rewrite Href.
Qed.

(** A state reached by toggles and resets keeps its field [on]. *)
Lemma foldl_next_obj_on (v0 : val) (script : list Step) :
  ∀ o, is_Some (o !! "on") → is_Some (foldl (next_obj v0) o script !! "on").
Proof.
  induction script as [|s script IH]; intros o Ho; [done|].
  simpl. apply IH. destruct s; simpl; [done|..];
    by rewrite lookup_singleton_eq.
Qed.

Lemma merged_fresh (o : gmap string val) (R : Reducer) (f : option Observer)
    (init : gmap string val) :
  is_Some (o !! "on") →
  merged (mkRender (get_field o "on") false (StObj o) R f init) = StObj o.
Proof.
  intros [v Hv]. unfold merged, get_field. simpl. rewrite Hv. simpl.
  by rewrite insert_id.
Qed.

(** X10: in an instance that owns its state and uses the built-in reducer,
    the state that a call of [toggle()] or [reset()] right after a render
    suggests to the observer is the very state that the next render reads,
    and the [on] it reports is the suggested one. *)
Theorem suggestion_is_committed (dev : bool) (p0 : Props) (script : list Step)
    (p : Props) (f : Observer) (s : Step) :
  not_nullish (controlledOn p0) = false →
  reducer p0 = None →
  Forall self_owned_step script →
  not_nullish (controlledOn p) = false ∧ reducer p = None →
  onChange p = Some f →
  s = CallToggle ∨ s = CallReset →
  let a := match s with
           | CallReset =>
               resetAction {[ "on" := default_param (VBool false) (initialOn p0) ]}
           | _ => toggleAction
           end in
  ∃ i i' next,
    lifetime dev p0 (script ++ [Rerender p]) = Ok i
    ∧ run dev i [s; Rerender p] = Ok i'
    ∧ notified i' = (notified i ++ [(f, next, a)])%list
    ∧ reducerState (hooks i') = next
    ∧ state_on next = Ok (on (rendered i')).
Proof.
  intros Hp0 Hdef Hall Hp Hf Hs intent.
  destruct (mount_self_owned dev p0 Hp0 Hdef) as (i0 & E0 & H0 & _).
  destruct (run_self_owned dev _ script _ i0 H0 Hall) as (i1 & E1 & H1 & _).
  set (v0 := default_param (VBool false) (initialOn p0)) in *.
  set (o := foldl (next_obj v0) {[ "on" := v0 ]} script) in *.
  assert (Ho : is_Some (o !! "on")).
  { apply foldl_next_obj_on. by rewrite lookup_singleton_eq. }
  destruct (rerender_self_owned dev v0 o i1 p H1 Hp)
    as (i & E & Hi & _ & _ & Hr & _).
  assert (Hm : merged (rendered i) = StObj o) by (rewrite Hr; by apply merged_fresh).
  assert (Hsug : ∀ a next, toggleReducer (StObj o) a = Ok next →
            observed (dispatchWithOnChange (rendered i) a).1 = [(f, next, a)]).
  { intros a next Hn.
    apply (dispatchWithOnChange_observed (rendered i) a f next).
    - by rewrite Hr.
    - rewrite Hm, Hr. exact Hn. }
  assert (Hlife : lifetime dev p0 (script ++ [Rerender p]) = Ok i).
  { unfold lifetime. rewrite E0. simpl. rewrite run_app, E1. simpl.
    by rewrite E. }
  assert (Hso : self_owned_step s) by (by destruct Hs as [-> | ->]).
  destruct (step_self_owned dev v0 o i s Hi Hso) as (j & Ej & Hj & _).
  destruct (rerender_self_owned dev v0 _ j p Hj Hp)
    as (i' & E' & _ & Hst & _ & Hr' & Hn' & _).
  assert (Hon : state_on (StObj (next_obj v0 o s)) = Ok (on (rendered i')))
    by (by rewrite Hr').
  destruct Hs as [-> | ->]; simpl in Ej; injection Ej as <-.
  - exists i, i', (StObj (next_obj v0 o CallToggle)).
    split; [exact Hlife|]. split; [simpl; by rewrite E'|].
    split; [|done]. rewrite Hn'. simpl. f_equal. apply Hsug.
    by apply toggleReducer_toggle.
  - exists i, i', (StObj (next_obj v0 o CallReset)).
    split; [exact Hlife|]. split; [simpl; by rewrite E'|].
    split; [|done]. rewrite Hn'. simpl. f_equal. unfold reset.
    replace (cur_initialState (rendered i)) with ({[ "on" := v0 ]} : gmap string val)
      by (by rewrite Hr).
    apply Hsug. by rewrite toggleReducer_reset.
Qed.

Lemma mount_bindings (dev : bool) (p : Props) (i : Instance) :
  mount dev p = Ok i →
  useToggle dev p None = Ok (hooks i, rendered i, console i)
  ∧ notified i = []
  ∧ uncaught i = [].
Proof.
  unfold mount. destruct (useToggle dev p None) as [[[h r] log]|e]; simpl;
    [|done].
  by intros [= <-].
Qed.

Lemma run_repeat_toggle (dev : bool) (k : nat) :
  ∀ i x, observed (toggle (rendered i)).1 = [x] →
         ∃ i', run dev i (repeat CallToggle k) = Ok i'
               ∧ rendered i' = rendered i
               ∧ notified i' = (notified i ++ repeat x k)%list.
Proof.
  induction k as [|k IH]; intros i x Hx.
  - exists i. simpl. by rewrite app_nil_r.
  - destruct (IH (handle i (toggle (rendered i))) x Hx) as (i' & E & Hr & Hn).
    exists i'. simpl. split; [exact E|]. split; [exact Hr|].
    rewrite Hn. simpl. rewrite Hx. by rewrite <- app_assoc.
Qed.

Lemma toggles_repeat (k : nat) :
  toggles (repeat CallToggle k) = k
  ∧ Forall toggling_step (repeat CallToggle k).
Proof.
  induction k as [|k [IH1 IH2]]; simpl; [by split|].
  split; [by rewrite IH1|by constructor].
Qed.

(** X9: the handlers close over the render that returned them.  When
    [toggle()] of one render of a fresh self-owned instance is called k times
    before the next render, the observer is told k times the same suggestion
    [{on: true}], while the next render reports [on] = (k is odd). *)
Theorem toggles_from_one_render (dev : bool) (p0 : Props) (k : nat)
    (p : Props) (f : Observer) :
  not_nullish (controlledOn p0) = false →
  reducer p0 = None →
  default_param (VBool false) (initialOn p0) = VBool false →
  onChange p0 = Some f →
  not_nullish (controlledOn p) = false ∧ reducer p = None →
  ∃ i, lifetime dev p0 (repeat CallToggle k ++ [Rerender p]) = Ok i
       ∧ notified i
         = repeat (f, StObj {[ "on" := VBool true ]}, toggleAction) k
       ∧ on (rendered i) = VBool (Nat.odd k).
Proof.
  intros Hp0 Hdef Hinit Hf Hp.
  destruct (mount_self_owned dev p0 Hp0 Hdef) as (i0 & E0 & H0 & Hon0).
  rewrite Hinit in H0, Hon0.
  destruct (mount_bindings dev p0 i0 E0) as (Hb & Hn0 & _).
  destruct (useToggle_bindings _ _ _ _ _ _ Hb) as (_ & HR & Hobs & _).
  rewrite Hdef in HR. rewrite Hf in Hobs. simpl in HR.
  assert (Hx : observed (toggle (rendered i0)).1
               = [(f, StObj {[ "on" := VBool true ]}, toggleAction)]).
  { apply dispatchWithOnChange_observed; [done|].
    by rewrite HR, toggleReducer_merged_toggle, Hon0. }
  destruct (run_repeat_toggle dev k i0 _ Hx) as (i1 & E1 & _ & Hn1).
  destruct (toggles_repeat k) as [Hk Hall].
  destruct (run_self_owned dev _ _ _ i0 H0 (toggling_self_owned _ Hall))
    as (i1' & E1' & H1 & _).
  rewrite E1 in E1'. injection E1' as <-.
  destruct (foldl_toggles (VBool false) _ Hall 0) as [Hfold _].
  change (Nat.odd 0) with false in Hfold.
  rewrite Hk, Nat.add_0_r in Hfold. rewrite Hfold in H1.
  destruct (rerender_self_owned dev _ _ i1 p H1 Hp)
    as (i & E & _ & _ & _ & Hr & Hn & _).
  exists i. unfold lifetime. rewrite E0. simpl. rewrite run_app, E1. simpl.
  rewrite E. split; [done|]. rewrite Hn, Hn1, Hn0, Hr. simpl.
  split; [done|]. unfold get_field. by rewrite lookup_singleton_eq.
Qed.

(** ** Gaining and dropping control *)

Lemma rerender_take_control (dev : bool) (v0 : val) (o : gmap string val)
    (i : Instance) (p : Props) :
  self_owned v0 o i →
  not_nullish (controlledOn p) = true →
  reducer p = None →
  ∃ i', rerender dev p i = Ok i' ∧ standby (StObj o) i'.
Proof.
  intros (_ & _ & _ & Hcom) Hp Hdef. unfold committed in Hcom.
  unfold rerender, useToggle. simpl. rewrite Hdef, Hp. simpl.
  rewrite Hcom. simpl.
  destruct (diagnostics _ _ _ _ _) as [diag log]. simpl.
  eexists. split; [reflexivity|]. done.
Qed.

Lemma rerender_drop_control (dev : bool) (o : gmap string val) (i : Instance)
    (p : Props) :
  standby (StObj o) i →
  not_nullish (controlledOn p) = false →
  ∃ i', rerender dev p i = Ok i'
        ∧ reducerState (hooks i') = StObj o
        ∧ on (rendered i') = get_field o "on".
Proof.
  intros (Hst & Hq & _) Hp. unfold rerender, useToggle. simpl.
  rewrite Hq, Hst, Hp. simpl.
  destruct (diagnostics _ _ _ _ _) as [diag log]. simpl.
  eexists. split; [reflexivity|]. done.
Qed.

(** X11: a period of control leaves no trace in the state of an instance
    that uses the built-in reducer.  If, after a self-owned script, the
    instance is rendered with a non-null [on] for a while, with any calls of
    [toggle()] and [reset()] in between, and is then rendered without [on]
    again, this render reads and reports what it would have read and reported
    right after the self-owned script. *)
Theorem control_leaves_no_trace (dev : bool) (p0 : Props)
    (script1 : list Step) (pc : Props) (script2 : list Step) (pu : Props) :
  not_nullish (controlledOn p0) = false →
  reducer p0 = None →
  Forall self_owned_step script1 →
  not_nullish (controlledOn pc) = true ∧ reducer pc = None →
  Forall controlled_step script2 →
  not_nullish (controlledOn pu) = false ∧ reducer pu = None →
  ∃ ia ib,
    lifetime dev p0 (script1 ++ [Rerender pu]) = Ok ia
    ∧ lifetime dev p0 (script1 ++ Rerender pc :: script2 ++ [Rerender pu])
      = Ok ib
    ∧ reducerState (hooks ib) = reducerState (hooks ia)
    ∧ on (rendered ib) = on (rendered ia).
Proof.
  intros Hp0 Hdef Hall1 [Hpc Hdefc] Hall2 Hpu.
  destruct (mount_self_owned dev p0 Hp0 Hdef) as (i0 & E0 & H0 & _).
  destruct (run_self_owned dev _ script1 _ i0 H0 Hall1) as (i1 & E1 & H1 & _).
  destruct (rerender_self_owned dev _ _ i1 pu H1 Hpu)
    as (ia & Ea & _ & Hsta & _ & Hra & _).
  destruct (rerender_take_control dev _ _ i1 pc H1 Hpc Hdefc) as (i2 & E2 & H2).
  destruct (run_standby dev _ script2 i2 H2 Hall2) as (i3 & E3 & H3 & _).
  destruct (rerender_drop_control dev _ i3 pu H3 (proj1 Hpu))
    as (ib & Eb & Hstb & Honb).
  exists ia, ib. unfold lifetime. rewrite E0. simpl.
  rewrite !run_app, E1. simpl. rewrite Ea, E2. simpl.
  rewrite run_app, E3. simpl. rewrite Eb.
  split; [done|]. split; [done|]. rewrite Hsta, Hstb, Honb, Hra. done.
Qed.

(** ** The [App] component *)

Lemma click_is_toggle (t : Instance) : click t = toggle (rendered t).
Proof.
  unfold click, switchProps, getTogglerProps, asFn. simpl.
  destruct (toggle (rendered t)) as [evs [[]|e]]; simpl;
    by rewrite ?app_nil_r, list_fmap_id.
Qed.

Lemma rerender_both (dev : bool) (a a' : AppState) (t : Instance) :
  both_ok a t →
  not_nullish (bothOn a') = true →
  ∃ t', rerender dev (bothOptions a') t = Ok t' ∧ both_ok a' t'.
Proof.
  intros ((Hst & Hq & _) & Href & _) Ha. unfold rerender, useToggle. simpl.
  rewrite Hq, Hst, Ha, Href. simpl.
  destruct (diagnostics _ _ _ _ _) as [diag log]. simpl.
  eexists. split; [reflexivity|]. unfold both_ok, standby. simpl.
  done.
Qed.

Lemma click_both (a : AppState) (t : Instance) (b : bool) :
  both_ok a t →
  bothOn a = VBool b →
  observed (click t).1
  = [("handleToggleChange", StObj {[ "on" := VBool (negb b) ]}, toggleAction)]
  ∧ both_ok a (handle t (click t)).
Proof.
  intros (Hs & Href & Hr) Hb. rewrite click_is_toggle. split.
  - apply dispatchWithOnChange_observed; [by rewrite Hr|].
    rewrite Hr. cbn [cur_reducer]. rewrite toggleReducer_merged_toggle.
    cbn [on]. by rewrite Hb.
  - destruct (handle_standby _ t toggleAction Hs) as [Hh Hs'].
    unfold both_ok. fold (toggle (rendered t)) in Hh, Hs'.
    rewrite Hh. done.
Qed.

Lemma rerender_free (dev : bool) (m : nat) (t : Instance) :
  self_owned (VBool false) {[ "on" := VBool (Nat.odd m) ]} t →
  ∃ t', rerender dev freeOptions t = Ok t' ∧ free_ok m t'.
Proof.
  intros Ht.
  destruct (rerender_self_owned dev _ _ t freeOptions Ht) as (t' & E & Hs & _ & _ & Hr & _);
    [done|].
  exists t'. split; [exact E|]. split; [exact Hs|].
  rewrite Hr. unfold get_field. by rewrite lookup_singleton_eq.
Qed.

Lemma click_free (m : nat) (t : Instance) :
  free_ok m t →
  self_owned (VBool false) {[ "on" := VBool (Nat.odd (S m)) ]} (handle t (click t))
  ∧ observed (click t).1
    = [("console.info", StObj {[ "on" := VBool (Nat.odd (S m)) ]}, toggleAction)].
Proof.
  intros [Hs Hr]. rewrite click_is_toggle. split.
  - destruct (step_self_owned true _ _ t CallToggle Hs I) as (t' & E & Hs' & _).
    simpl in E. injection E as <-. simpl in Hs'.
    by rewrite toggle_flips_parity in Hs'.
  - apply dispatchWithOnChange_observed; [by rewrite Hr|].
    rewrite Hr. cbn [cur_reducer]. rewrite toggleReducer_merged_toggle.
    cbn [on truthy]. by rewrite Nat.odd_succ, <- Nat.negb_odd.
Qed.

Lemma renderApp_ok (dev : bool) (a1 a2 a' : AppState) (t1 t2 t3 : Instance)
    (m : nat) (printed : list (jsstate * Action)) :
  both_ok a1 t1 →
  both_ok a2 t2 →
  self_owned (VBool false) {[ "on" := VBool (Nat.odd m) ]} t3 →
  not_nullish (bothOn a') = true →
  ∃ x', renderApp dev a' t1 t2 t3 printed = Ok x'
        ∧ appState x' = a'
        ∧ both_ok a' (firstToggle x')
        ∧ both_ok a' (secondToggle x')
        ∧ free_ok m (freeToggle x')
        ∧ info x' = printed.
Proof.
  intros H1 H2 H3 Ha.
  destruct (rerender_both dev a1 a' t1 H1 Ha) as (t1' & E1 & H1').
  destruct (rerender_both dev a2 a' t2 H2 Ha) as (t2' & E2 & H2').
  destruct (rerender_free dev m t3 H3) as (t3' & E3 & H3').
  unfold renderApp. rewrite E1. simpl. rewrite E2. simpl. rewrite E3. simpl.
  eexists. split; [reflexivity|]. done.
Qed.

(** Every click keeps [App] and its three toggles in step with the
    summary. *)
Lemma appStep_ok (dev : bool) (c : bool * Z * nat) (x : AppInstance)
    (ev : AppEvent) :
  app_ok c x →
  ∃ x', appStep dev x ev = Ok x' ∧ app_ok (appNext c ev) x'.
Proof.
  destruct c as [[b n] m]. intros (Ha & H1 & H2 & H3 & Hi). simpl in *.
  assert (Hb : bothOn (appState x) = VBool b) by (by rewrite Ha).
  assert (Hother : ∀ t, both_ok (appState x) t →
            notifyOwner (appState x) (observed (click t).1)
            = Ok (if (4 <? n)%Z then []
                  else [SetBothOn (VBool (negb b));
                        UpdateTimesClicked (λ c, (c + 1)%Z)])).
  { intros t Ht. destruct (click_both _ t b Ht Hb) as [-> _].
    simpl. unfold handleToggleChange. rewrite Ha. simpl.
    destruct (4 <? n)%Z; simpl; [done|].
    unfold get_field. by rewrite lookup_singleton_eq. }
  destruct ev; simpl.
  - rewrite (Hother _ H1). simpl.
    destruct (click_both _ _ b H1 Hb) as [_ H1'].
    destruct (renderApp_ok dev _ _
                (foldl applyUpdate (appState x)
                   (if (4 <? n)%Z then []
                    else [SetBothOn (VBool (negb b));
                          UpdateTimesClicked (λ c, (c + 1)%Z)]))
                _ _ _ m (info x) H1' H2 (proj1 H3))
      as (x' & E & Hx & G1 & G2 & G3 & G4);
      [by destruct (4 <? n)%Z; simpl; rewrite ?Hb|].
    exists x'. split; [exact E|]. unfold app_ok. rewrite Hx, G4.
    destruct (4 <? n)%Z; simpl in *; rewrite Ha in G1, G2 |- *; done.
  - rewrite (Hother _ H2). simpl.
    destruct (click_both _ _ b H2 Hb) as [_ H2'].
    destruct (renderApp_ok dev _ _
                (foldl applyUpdate (appState x)
                   (if (4 <? n)%Z then []
                    else [SetBothOn (VBool (negb b));
                          UpdateTimesClicked (λ c, (c + 1)%Z)]))
                _ _ _ m (info x) H1 H2' (proj1 H3))
      as (x' & E & Hx & G1 & G2 & G3 & G4);
      [by destruct (4 <? n)%Z; simpl; rewrite ?Hb|].
    exists x'. split; [exact E|]. unfold app_ok. rewrite Hx, G4.
    destruct (4 <? n)%Z; simpl in *; rewrite Ha in G1, G2 |- *; done.
  - destruct (click_free m _ H3) as [H3' Hobs].
    destruct (renderApp_ok dev _ _ (appState x) _ _ _ (S m)
                (info x ++ ((λ c, (c.1.2, c.2)) <$> observed (click (freeToggle x)).1))
                H1 H2 H3')
      as (x' & E & Hx & G1 & G2 & G3 & G4); [by rewrite Hb|].
    exists x'. split; [exact E|]. unfold app_ok. rewrite Hx, G4.
    simpl. rewrite Hobs, length_app. simpl.
    do 4 (split; [done|]). lia.
  - destruct (renderApp_ok dev _ _
                (foldl applyUpdate (appState x) handleResetClick)
                _ _ _ m (info x) H1 H2 (proj1 H3))
      as (x' & E & Hx & G1 & G2 & G3 & G4); [done|].
    exists x'. split; [exact E|]. unfold app_ok. rewrite Hx, G4.
    done.
Qed.

Lemma runApp_ok (dev : bool) (events : list AppEvent) :
  ∀ c x, app_ok c x →
         ∃ x', runApp dev x events = Ok x' ∧ app_ok (foldl appNext c events) x'.
Proof.
  induction events as [|ev events IH]; intros c x Hx.
  - exists x. done.
  - destruct (appStep_ok dev c x ev Hx) as (x1 & E1 & H1).
    destruct (IH _ x1 H1) as (x' & E' & H').
    exists x'. simpl. rewrite E1. done.
Qed.

Lemma mountApp_ok (dev : bool) :
  ∃ x, mountApp dev = Ok x ∧ app_ok (false, 0%Z, 0) x.
Proof.
  unfold mountApp, mount, useToggle. simpl.
  destruct (diagnostics dev (VBool false) _ _ _) as [d1 l1].
  destruct (diagnostics dev VUndefined _ _ _) as [d3 l3]. simpl.
  eexists. split; [reflexivity|].
  unfold app_ok, both_ok, free_ok, standby, self_owned, committed. simpl.
  unfold get_field. rewrite lookup_singleton_eq. done.
Qed.

Lemma lifetimeApp_ok (dev : bool) (events : list AppEvent) :
  ∃ x, lifetimeApp dev events = Ok x
       ∧ app_ok (foldl appNext (false, 0%Z, 0) events) x.
Proof.
  destruct (mountApp_ok dev) as (x0 & E0 & H0).
  destruct (runApp_ok dev events _ x0 H0) as (x & E & H).
  exists x. unfold lifetimeApp. rewrite E0. done.
Qed.

Lemma bothClicks_cons (ev : AppEvent) (events : list AppEvent) :
  bothClicks (ev :: events)
  = (match ev with ClickFirst | ClickSecond => 1 | _ => 0 end
     + bothClicks events)%nat.
Proof.
  unfold bothClicks. rewrite filter_cons.
  destruct ev; case_decide as H; simpl; try done; exfalso;
    first [by destruct H | apply H; auto].
Qed.

Lemma freeClicks_cons (ev : AppEvent) (events : list AppEvent) :
  freeClicks (ev :: events)
  = (match ev with ClickFree => 1 | _ => 0 end + freeClicks events)%nat.
Proof.
  unfold freeClicks. rewrite filter_cons.
  destruct ev; case_decide as H; simpl; done.
Qed.

(** The summary over any clicks: the counter stays within 0..5, the flag is
    its parity, and the third component counts the clicks on the
    uncontrolled toggle. *)
Lemma appNext_invariant (events : list AppEvent) :
  ∀ (b : bool) (n : Z) (m : nat), (0 ≤ n ≤ 5)%Z → b = Z.odd n →
    ∃ b' n', foldl appNext (b, n, m) events = (b', n', (m + freeClicks events)%nat)
             ∧ (0 ≤ n' ≤ 5)%Z ∧ b' = Z.odd n'.
Proof.
  induction events as [|ev events IH]; intros b n m Hn Hb.
  - exists b, n. simpl. unfold freeClicks. simpl. by rewrite Nat.add_0_r.
  - rewrite freeClicks_cons. cbn [foldl].
    assert (Hclick : ∃ b1 n1, (if (4 <? n)%Z then (b, n, m)
                               else (negb b, (n + 1)%Z, m)) = (b1, n1, m)
                              ∧ (0 ≤ n1 ≤ 5)%Z ∧ b1 = Z.odd n1).
    { destruct (Z.ltb_spec 4 n).
      - by exists b, n.
      - exists (negb b), (n + 1)%Z. split; [done|]. split; [lia|].
        by rewrite Hb, Z.add_1_r, Z.odd_succ, Z.negb_odd. }
    destruct ev; simpl.
    + destruct Hclick as (b1 & n1 & -> & Hn1 & Hb1). apply IH; done.
    + destruct Hclick as (b1 & n1 & -> & Hn1 & Hb1). apply IH; done.
    + destruct (IH b n (S m) Hn Hb) as (b' & n' & E & Hn' & Hb').
      exists b', n'. rewrite E. split; [f_equal; lia|done].
    + destruct (IH false 0%Z m) as (b' & n' & E & Hn' & Hb'); [lia|done|].
      by exists b', n'.
Qed.

(** Without a click on the reset button, the counter is the number of
    clicks on the controlled toggles, capped at 5. *)
Lemma appNext_cap (events : list AppEvent) :
  Forall (λ ev, ev ≠ ClickResetButton) events →
  ∀ j m : nat, (j ≤ 5)%nat →
    foldl appNext (Nat.odd j, Z.of_nat j, m) events
    = (Nat.odd (Nat.min (j + bothClicks events) 5),
       Z.of_nat (Nat.min (j + bothClicks events) 5),
       (m + freeClicks events)%nat).
Proof.
  induction 1 as [|ev events Hev _ IH]; intros j m Hj.
  - unfold bothClicks, freeClicks. simpl.
    by rewrite !Nat.add_0_r, Nat.min_l.
  - rewrite bothClicks_cons, freeClicks_cons. cbn [foldl].
    assert (Hclick : (if (4 <? Z.of_nat j)%Z then (Nat.odd j, Z.of_nat j, m)
                      else (negb (Nat.odd j), (Z.of_nat j + 1)%Z, m))
                     = (Nat.odd (Nat.min (S j) 5), Z.of_nat (Nat.min (S j) 5), m)).
    { destruct (Z.ltb_spec 4 (Z.of_nat j)).
      - assert (j = 5) as -> by lia. done.
      - rewrite Nat.min_l by lia.
        rewrite Nat.odd_succ, <- Nat.negb_odd. do 2 f_equal. lia. }
    destruct ev; simpl; [| | |done].
    + rewrite Hclick, IH by lia. do 2 f_equal; [f_equal|]; lia.
    + rewrite Hclick, IH by lia. do 2 f_equal; [f_equal|]; lia.
    + rewrite IH by lia. f_equal. lia.
Qed.

(** X17: as long as the reset button is not clicked, [App] counts the clicks
    on its two controlled toggles up to 5 and ignores the later ones: after k
    such clicks, mixed with any clicks on the uncontrolled toggle, the counter
    is min(k, 5), the shared flag is its parity, both controlled toggles
    report the flag, and the notice replaces the click count from the fifth
    click on. *)
Theorem App_counts_up_to_five (dev : bool) (events : list AppEvent) :
  Forall (λ ev, ev ≠ ClickResetButton) events →
  let k := Nat.min (bothClicks events) 5 in
  ∃ x, lifetimeApp dev events = Ok x
       ∧ appState x = mkAppState (VBool (Nat.odd k)) (Z.of_nat k)
       ∧ on (rendered (firstToggle x)) = VBool (Nat.odd k)
       ∧ on (rendered (secondToggle x)) = VBool (Nat.odd k)
       ∧ banner (appState x)
         = if decide (bothClicks events < 5)%nat
           then ClickCount (Z.of_nat (bothClicks events)) else Notice.
Proof.
  intros Hall k.
  destruct (lifetimeApp_ok dev events) as (x & E & Hx).
  change (false, 0%Z, 0) with (Nat.odd 0, Z.of_nat 0, 0) in Hx.
  rewrite (appNext_cap events Hall 0 0) in Hx by lia.
  rewrite Nat.add_0_l in Hx. fold k in Hx.
  destruct Hx as (Ha & (_ & _ & Hr1) & (_ & _ & Hr2) & _). simpl in Ha.
  exists x. split; [exact E|]. split; [exact Ha|].
  rewrite Hr1, Hr2, Ha. simpl. split; [done|]. split; [done|].
  unfold banner. simpl. subst k.
  case_decide.
  - rewrite Nat.min_l by lia. destruct (Z.ltb_spec 4 (Z.of_nat (bothClicks events)));
      [lia|done].
  - rewrite Nat.min_r by lia. done.
Qed.

(** X18: whatever is clicked, in whatever order, [App] renders, its counter
    stays between 0 and 5, the shared flag is a boolean, the parity of the
    counter, both controlled toggles report it, and the internal state of the
    controlled toggles is still the [{on: false}] of their mount. *)
Theorem App_invariant (dev : bool) (events : list AppEvent) :
  ∃ x, lifetimeApp dev events = Ok x
       ∧ (0 ≤ timesClicked (appState x) ≤ 5)%Z
       ∧ bothOn (appState x) = VBool (Z.odd (timesClicked (appState x)))
       ∧ on (rendered (firstToggle x)) = bothOn (appState x)
       ∧ on (rendered (secondToggle x)) = bothOn (appState x)
       ∧ reducerState (hooks (firstToggle x)) = StObj {[ "on" := VBool false ]}
       ∧ reducerState (hooks (secondToggle x)) = StObj {[ "on" := VBool false ]}.
Proof.
  destruct (lifetimeApp_ok dev events) as (x & E & Hx).
  destruct (appNext_invariant events false 0%Z 0) as (b & n & Hc & Hn & Hb);
    [lia|done|].
  rewrite Hc in Hx.
  destruct Hx as (Ha & ((Hs1 & _) & _ & Hr1) & ((Hs2 & _) & _ & Hr2) & _).
  simpl in Ha. exists x. split; [exact E|].
  rewrite Hr1, Hr2, Ha. simpl. by rewrite Hb.
Qed.

(** X19: the uncontrolled toggle of [App] lives on its own: it reports the
    parity of the clicks it received, whatever was clicked besides, and each
    of its clicks prints once with [console.info]. *)
Theorem App_free_toggle (dev : bool) (events : list AppEvent) :
  ∃ x, lifetimeApp dev events = Ok x
       ∧ on (rendered (freeToggle x)) = VBool (Nat.odd (freeClicks events))
       ∧ state (rendered (freeToggle x))
         = StObj {[ "on" := VBool (Nat.odd (freeClicks events)) ]}
       ∧ length (info x) = freeClicks events.
Proof.
  destruct (lifetimeApp_ok dev events) as (x & E & Hx).
  destruct (appNext_invariant events false 0%Z 0) as (b & n & Hc & _);
    [lia|done|].
  rewrite Hc in Hx. destruct Hx as (_ & _ & _ & (_ & Hr) & Hi). simpl in *.
  exists x. split; [exact E|]. by rewrite Hr.
Qed.

(** X20: a click on the reset button of [App] brings the counter back to 0
    and the flag to false, whatever was clicked before, so the click count is
    shown again and both controlled toggles report false; the uncontrolled
    toggle is not reset. *)
Theorem App_reset_button (dev : bool) (events : list AppEvent) :
  ∃ x, lifetimeApp dev (events ++ [ClickResetButton]) = Ok x
       ∧ appState x = mkAppState (VBool false) 0
       ∧ banner (appState x) = ClickCount 0
       ∧ on (rendered (firstToggle x)) = VBool false
       ∧ on (rendered (secondToggle x)) = VBool false
       ∧ on (rendered (freeToggle x)) = VBool (Nat.odd (freeClicks events)).
Proof.
  destruct (lifetimeApp_ok dev (events ++ [ClickResetButton])) as (x & E & Hx).
  rewrite foldl_app in Hx.
  destruct (appNext_invariant events false 0%Z 0) as (b & n & Hc & _);
    [lia|done|].
  rewrite Hc in Hx. simpl in Hx.
  destruct Hx as (Ha & (_ & _ & Hr1) & (_ & _ & Hr2) & (_ & Hr3) & _).
  simpl in *. exists x. split; [exact E|].
  by rewrite Hr1, Hr2, Hr3, Ha.
Qed.

(** ** Concrete instances *)

Lemma getTogglerProps_attrs_witness :
  let r := mkRender (VBool true) true (StObj {[ "on" := VBool false ]})
             toggleReducer None {[ "on" := VBool false ]} in
  let el := getTogglerProps (A := unit) id r
              (Some (mkGetterArg None {[ "id" := VStr "a" ]})) in
  attrs el !! "aria-pressed" = Some (VBool true)
  ∧ attrs el !! "id" = Some (VStr "a").
Proof.
  intros r el.
  destruct (getTogglerProps_attrs (A := unit) id r None {[ "id" := VStr "a" ]})
    as (Hp & Hk & _).
  split; [exact Hp|]. apply Hk. discriminate.
Defined.

Lemma Toggle_switch_props_witness :
  ∃ h (el : ElementProps unit Event) log r,
    Toggle true (VBool true) (Some "owner") VUndefined None = Ok (h, el, log)
    ∧ useToggle true (mkProps VUndefined None (Some "owner") (VBool true) VUndefined)
        None = Ok (h, r, log)
    ∧ attrs el = {[ "aria-pressed" := on r; "on" := on r ]}
    ∧ handleClick el () = toggle r
    ∧ on r = VBool true.
Proof.
  assert (H : ∃ h (el : ElementProps unit Event) log,
             Toggle true (VBool true) (Some "owner") VUndefined None
             = Ok (h, el, log))
    by (eexists _, _, _; reflexivity).
  destruct H as (h & el & log & H).
  destruct (Toggle_switch_props _ _ _ _ _ _ _ _ H) as (r & Hr & Ha & Hc & Hon).
  exists h, el, log, r.
  split; [exact H|]. split; [exact Hr|]. split; [exact Ha|].
  split; [apply Hc|apply Hon; reflexivity].
Defined.

Lemma no_observer_no_reducer_call_witness :
  ∃ h r log,
    useToggle true (mkProps VUndefined None None (VBool true) VUndefined) None
    = Ok (h, r, log)
    ∧ toggle r = ([], Ok ())
    ∧ reset r = ([], Ok ()).
Proof.
  assert (H : ∃ h r log,
             useToggle true (mkProps VUndefined None None (VBool true) VUndefined)
               None = Ok (h, r, log))
    by (eexists _, _, _; reflexivity).
  destruct H as (h & r & log & H).
  destruct (no_observer_no_reducer_call _ _ _ _ _ _ H eq_refl) as [Ht Hr].
  exists h, r, log. split; [exact H|]. split; [exact Ht|exact Hr].
Defined.

Lemma throwing_reducer_after_dispatch_witness :
  let broken : Reducer := λ _ _, Throw (Error "boom") in
  ∃ h r log,
    useToggle true (mkProps VUndefined (Some broken) (Some "owner") VUndefined
                      VUndefined) None
    = Ok (h, r, log)
    ∧ toggle r = ([EvDispatch toggleAction], Throw (Error "boom")).
Proof.
  intros broken.
  assert (H : ∃ h r log,
             useToggle true (mkProps VUndefined (Some broken) (Some "owner")
                               VUndefined VUndefined) None
             = Ok (h, r, log))
    by (eexists _, _, _; reflexivity).
  destruct H as (h & r & log & H).
  exists h, r, log. split; [exact H|].
  exact (throwing_reducer_after_dispatch _ _ _ _ _ _ "owner" toggleAction
           (Error "boom") H eq_refl eq_refl).
Defined.

Lemma rerender_idempotent_witness :
  ∃ h r log,
    useToggle true defaultProps None = Ok (h, r, log)
    ∧ useToggle true defaultProps (Some h) = Ok (h, r, []).
Proof.
  assert (H : ∃ h r log, useToggle true defaultProps None = Ok (h, r, log))
    by (eexists _, _, _; reflexivity).
  destruct H as (h & r & log & H).
  exists h, r, log. split; [exact H|].
  exact (rerender_idempotent _ _ _ _ _ _ H).
Defined.

Lemma production_logs_nothing_witness :
  ∃ i, lifetime false
         (mkProps VUndefined None None (VBool true) VUndefined)
         [CallToggle; Rerender defaultProps; CallToggle] = Ok i
       ∧ console i = []
       ∧ diagCells (hooks i) = None.
Proof.
  assert (H : ∃ i, lifetime false
                     (mkProps VUndefined None None (VBool true) VUndefined)
                     [CallToggle; Rerender defaultProps; CallToggle] = Ok i)
    by (eexists; reflexivity).
  destruct H as (i & H). exists i. split; [exact H|].
  exact (production_logs_nothing _ _ _ H).
Defined.

Lemma reset_without_payload_witness :
  toggleReducer (StObj {[ "on" := VBool true ]}) (mkAction "reset" StUndefined)
  = Ok StUndefined
  ∧ processQueue toggleReducer (StObj {[ "on" := VBool true ]})
      [mkAction "reset" StUndefined; toggleAction]
    = Throw (TypeError "Cannot read properties of undefined (reading 'on')").
Proof.
  exact (reset_without_payload (StObj {[ "on" := VBool true ]})
           (mkAction "reset" StUndefined) [] eq_refl eq_refl).
Defined.

Lemma suggestion_is_committed_witness :
  let p := mkProps VUndefined None (Some "owner") VUndefined VUndefined in
  ∃ i i' next,
    lifetime true p ([CallToggle] ++ [Rerender p]) = Ok i
    ∧ run true i [CallToggle; Rerender p] = Ok i'
    ∧ notified i' = (notified i ++ [("owner", next, toggleAction)])%list
    ∧ reducerState (hooks i') = next
    ∧ state_on next = Ok (on (rendered i')).
Proof.
  intros p.
  apply (suggestion_is_committed true p [CallToggle] p "owner" CallToggle);
    [reflexivity|reflexivity|repeat constructor|split; reflexivity|reflexivity|].
  left. reflexivity.
Defined.

Lemma toggles_from_one_render_witness :
  let p := mkProps VUndefined None (Some "owner") VUndefined VUndefined in
  ∃ i, lifetime true p (repeat CallToggle 2 ++ [Rerender p]) = Ok i
       ∧ notified i
         = repeat ("owner", StObj {[ "on" := VBool true ]}, toggleAction) 2
       ∧ on (rendered i) = VBool (Nat.odd 2).
Proof.
  intros p.
  apply (toggles_from_one_render true p 2 p "owner");
    [reflexivity|reflexivity|reflexivity|reflexivity|split; reflexivity].
Defined.

Lemma control_leaves_no_trace_witness :
  let owned := mkProps VUndefined None None (VBool false) VUndefined in
  ∃ ia ib,
    lifetime true defaultProps ([CallToggle] ++ [Rerender defaultProps]) = Ok ia
    ∧ lifetime true defaultProps
        ([CallToggle] ++ Rerender owned :: [CallToggle; CallReset]
           ++ [Rerender defaultProps]) = Ok ib
    ∧ reducerState (hooks ib) = reducerState (hooks ia)
    ∧ on (rendered ib) = on (rendered ia).
Proof.
  intros owned.
  apply (control_leaves_no_trace true defaultProps [CallToggle] owned
           [CallToggle; CallReset] defaultProps);
    [reflexivity|reflexivity|repeat constructor|split; reflexivity
    |repeat constructor|split; reflexivity].
Defined.

Lemma App_counts_up_to_five_witness :
  ∃ x, lifetimeApp true
         [ClickFirst; ClickSecond; ClickFree; ClickFirst; ClickFirst;
          ClickSecond; ClickFirst; ClickSecond] = Ok x
       ∧ appState x = mkAppState (VBool true) 5
       ∧ banner (appState x) = Notice.
Proof.
  destruct (App_counts_up_to_five true
              [ClickFirst; ClickSecond; ClickFree; ClickFirst; ClickFirst;
               ClickSecond; ClickFirst; ClickSecond])
    as (x & E & Ha & _ & _ & Hb).
  { repeat constructor; discriminate. }
  exists x. split; [exact E|]. split; [exact Ha|exact Hb].
Defined.
